(** * g3nserverside: the renderer's command dispatch and frame dedup gate

    A shallow embedding of [renderer/command.go] and [renderer/message.go]
    (which also holds the screenshot code), with the properties of the
    natural-language specification proved or refuted against it.

    Conventions of the embedding:
    - Go's [int] is a [Z] (the code only compares and stores integers, so no
      wrap-around is involved); [strconv.Atoi] is modelled for a 64-bit [int].
    - [float64] and [float32] are IEEE 754 binary64 and binary32 values, as
      [spec_float] of the Standard Library with the matching precision.
    - Calls into collaborators whose code is outside the two files (the g3n
      engine, the logger, channels, methods of [RenderingApp] defined
      elsewhere) are recorded, in order, in a trace of [Call]s.  Over a run
      of the command loop the two methods that write the selection are
      followed: [resetSelection] empties it and [selectNode] sets it to what
      the pick gives, a parameter of the model.
    - The outcome of [json.Unmarshal] on an inbound message and the outcome of
      the image encoder on a rendered frame are inputs of the model. *)

From Stdlib Require Import ZArith String Ascii List Bool Lia.
From Stdlib Require Import Strings.Byte.
From Stdlib Require Import Floats.SpecFloat.
From stdpp Require Import gmap strings.
Import ListNotations.

Open Scope string_scope.
Open Scope Z_scope.

(** ** Floating-point values *)

Definition float64 : Type := spec_float.
Definition float32 : Type := spec_float.

(** Conversions [float64(n)] and [float32(n)] of an integer: round to nearest,
    ties to even. *)
Definition float64_of_int (n : Z) : float64 :=
  binary_normalize 53 1024 n 0 false.
Definition float32_of_int (n : Z) : float32 :=
  binary_normalize 24 128 n 0 false.

(** Go's comparison operators on floats: every comparison with NaN is false. *)
Definition f_gt (x y : spec_float) : bool := SFltb y x.
Definition f_lt (x y : spec_float) : bool := SFltb x y.
Definition f_le (x y : spec_float) : bool := SFleb x y.
Definition f_eq (x y : spec_float) : bool := SFeqb x y.

Definition is_nan (x : spec_float) : bool :=
  match x with S754_nan => true | _ => false end.

(** ** renderer/command.go *)

(** [type Command struct]. *)
Record Command : Type := mkCommand {
  X : float32;
  Y : float32;
  Cmd : string;
  Val : string;
  Moved : bool;
  Ctrl : bool
}.

(** The zero value [Command{}]. *)
Definition Command_zero : Command :=
  mkCommand (S754_zero false) (S754_zero false) "" "" false false.

(** The constants of the package [github.com/g3n/engine/window] that the
    file uses. *)
Module window.

Inductive MouseButton : Type :=
  | MouseButtonLeft
  | MouseButtonMiddle
  | MouseButtonRight.

Inductive Key : Type := KeyUp | KeyLeft | KeyRight | KeyDown | KeyEnter.

Inductive Action : Type := Press | Release.

End window.

(** [mapMouseButton] maps js mouse buttons to window mouse buttons. *)
Definition mapMouseButton (value : string) : window.MouseButton :=
  if String.eqb value "0" then window.MouseButtonLeft
  else if String.eqb value "1" then window.MouseButtonMiddle
  else if String.eqb value "2" then window.MouseButtonRight
  else window.MouseButtonLeft.

(** [mapKey] maps js keys to window keys. *)
Definition mapKey (value : string) : window.Key :=
  if String.eqb value "38" then window.KeyUp
  else if String.eqb value "37" then window.KeyLeft
  else if String.eqb value "39" then window.KeyRight
  else if String.eqb value "40" then window.KeyDown
  else window.KeyEnter.

(** [getValueInRange] returns a value within bounds. *)
Definition getValueInRange (value lower upper : Z) : Z :=
  if value >? upper then upper
  else if value <? lower then lower
  else value.

(** [getFloatValueInRange] returns a value within bounds. *)
Definition getFloatValueInRange (value lower upper : float64) : float64 :=
  if f_gt value upper then upper
  else if f_lt value lower then lower
  else value.

(** *** Library functions of the Go standard library

    [strconv.Atoi] for a 64-bit [int]: an optional sign followed by one or
    more decimal digits, whose value fits in [int]; anything else is an
    error ([None]). *)
Definition digit_of (c : ascii) : option Z :=
  let n := Z.of_N (N_of_ascii c) in
  if (48 <=? n) && (n <=? 57) then Some (n - 48) else None.

Fixpoint parse_digits (s : string) (acc : Z) : option Z :=
  match s with
  | EmptyString => Some acc
  | String c s' =>
      match digit_of c with
      | Some d => parse_digits s' (acc * 10 + d)
      | None => None
      end
  end.

Definition minInt : Z := - 2 ^ 63.
Definition maxInt : Z := 2 ^ 63 - 1.

Definition Atoi (s : string) : option Z :=
  match s with
  | EmptyString => None
  | String c rest =>
      let neg := Ascii.eqb c "-" in
      let digits := if neg || Ascii.eqb c "+" then rest else s in
      match digits with
      | EmptyString => None
      | _ =>
          match parse_digits digits 0 with
          | Some n =>
              let v := if neg then - n else n in
              if (minInt <=? v) && (v <=? maxInt) then Some v else None
          | None => None
          end
      end
  end.

(** [strings.Split(s, sep)] for a separator of one byte: the pieces of [s]
    between the occurrences of [sep]; the empty string yields one empty
    piece. *)
Fixpoint Split (s : string) (sep : ascii) : list string :=
  match s with
  | EmptyString => [""]
  | String c s' =>
      if Ascii.eqb c sep then "" :: Split s' sep
      else
        match Split s' sep with
        | hd :: tl => String c hd :: tl
        | [] => [String c ""]
        end
  end.

(** *** State *)

(** Modelled from the spec: the constants [highQ], [mediumQ] and [lowQ] are
    declared outside the two files; the specification gives the quality
    tier the three values High, Medium and Low. *)
Inductive Quality : Type := highQ | mediumQ | lowQ.

(** Modelled from the spec: the struct behind [app.imageSettings] is
    declared outside the two files; its fields are those of the
    specification's ImageSettings, under the names and with the types the
    code reads and writes them. *)
Record ImageSettings : Type := mkImageSettings {
  brightness : float64;
  contrast : float64;
  saturation : float64;
  blur : float64;
  pixelation : float64;
  invert : bool;
  quality : Quality;
  encoder : string;
  isNavigating : bool
}.

(** A scene node of the engine ([*core.Node]): its identity, and its user
    data as [fmt.Sprintf("%v", node.UserData())] renders it. *)
Record Node : Type := mkNode {
  node_ptr : positive;
  UserData : string
}.

(** Modelled from the spec: the struct [RenderingApp] is declared outside
    the two files; these are the fields the two files read and write.
    [selectionBuffer] lists the keys of the Go map in the order a [range]
    visits them, and [nodeBuffer] maps node identifiers to nodes. *)
Record RenderingApp : Type := mkRenderingApp {
  imageSettings : ImageSettings;
  selectionBuffer : list Node;
  nodeBuffer : gmap string Node;
  Debug : bool
}.

(** The mutable state of the package: the application object and the
    package-level variable [md5SumBuffer] of message.go. *)
Record Program : Type := mkProgram {
  renderingApp : RenderingApp;
  md5SumBuffer : list byte
}.

(** [type Message struct]: the message for the client. *)
Record Message : Type := mkMessage {
  Action : string;
  Value : string
}.

(** Calls on collaborators, in the order the code makes them. *)
Inductive Call : Type :=
  | Log_Error (msg : string)
  | Log_Info (msg : string)
  | Log_Info_received (cmd : Command)
  | Orbit_OnCursorPos (Xpos Ypos : float32)
  | Orbit_OnMouse (Xpos Ypos : float32) (action : window.Action)
      (Button : window.MouseButton)
  | Orbit_OnScroll (Xoffset Yoffset : float32)
  | Orbit_OnKey (action : window.Action) (Keycode : window.Key)
  | selectNode (x y : float32) (multiselect : bool)
  | Node_SetVisible (n : Node) (state : bool)
  | resetSelection
  | setCamera (view : string)
  | zoomToExtent
  | focusOnSelection
  | CameraPersp_SetFov (fov : float32)
  | Window_SetShouldClose (close : bool)
  | AddToByteBuffer (size : Z)
  | cData_send (msg : string)
  | cImagestream_send (imageBit : list byte).

(** Field updates. *)
Definition set_brightness (v : float64) (s : ImageSettings) : ImageSettings :=
  mkImageSettings v (contrast s) (saturation s) (blur s) (pixelation s)
    (invert s) (quality s) (encoder s) (isNavigating s).
Definition set_contrast (v : float64) (s : ImageSettings) : ImageSettings :=
  mkImageSettings (brightness s) v (saturation s) (blur s) (pixelation s)
    (invert s) (quality s) (encoder s) (isNavigating s).
Definition set_saturation (v : float64) (s : ImageSettings) : ImageSettings :=
  mkImageSettings (brightness s) (contrast s) v (blur s) (pixelation s)
    (invert s) (quality s) (encoder s) (isNavigating s).
Definition set_blur (v : float64) (s : ImageSettings) : ImageSettings :=
  mkImageSettings (brightness s) (contrast s) (saturation s) v (pixelation s)
    (invert s) (quality s) (encoder s) (isNavigating s).
Definition set_pixelation (v : float64) (s : ImageSettings) : ImageSettings :=
  mkImageSettings (brightness s) (contrast s) (saturation s) (blur s) v
    (invert s) (quality s) (encoder s) (isNavigating s).
Definition set_invert (v : bool) (s : ImageSettings) : ImageSettings :=
  mkImageSettings (brightness s) (contrast s) (saturation s) (blur s)
    (pixelation s) v (quality s) (encoder s) (isNavigating s).
Definition set_quality (v : Quality) (s : ImageSettings) : ImageSettings :=
  mkImageSettings (brightness s) (contrast s) (saturation s) (blur s)
    (pixelation s) (invert s) v (encoder s) (isNavigating s).
Definition set_isNavigating (v : bool) (s : ImageSettings) : ImageSettings :=
  mkImageSettings (brightness s) (contrast s) (saturation s) (blur s)
    (pixelation s) (invert s) (quality s) (encoder s) v.

Definition with_imageSettings (f : ImageSettings -> ImageSettings)
    (p : Program) : Program :=
  mkProgram
    (mkRenderingApp (f (imageSettings (renderingApp p)))
       (selectionBuffer (renderingApp p)) (nodeBuffer (renderingApp p))
       (Debug (renderingApp p)))
    (md5SumBuffer p).

Definition set_Debug (v : bool) (p : Program) : Program :=
  mkProgram
    (mkRenderingApp (imageSettings (renderingApp p))
       (selectionBuffer (renderingApp p)) (nodeBuffer (renderingApp p)) v)
    (md5SumBuffer p).

Definition set_md5SumBuffer (md : list byte) (p : Program) : Program :=
  mkProgram (renderingApp p) md.

Definition set_selectionBuffer (selection : list Node) (p : Program)
    : Program :=
  mkProgram
    (mkRenderingApp (imageSettings (renderingApp p)) selection
       (nodeBuffer (renderingApp p)) (Debug (renderingApp p)))
    (md5SumBuffer p).

(** [scrollFactor := float32(10.0)]. *)
Definition scrollFactor : float32 := float32_of_int 10.

Section Renderer.

(** [strconv.ParseFloat(s, 64)]: [Some v] when it returns [v] with a nil
    error, [None] when it returns an error. *)
Variable ParseFloat : string -> option float64.

(** [json.Marshal(m)] for a [*Message]: the JSON text, or the error. *)
Variable json_Marshal : Message -> string + string.

(** ** renderer/message.go: [sendMessageToClient] sends a message to the
    client.  The channel send is commented out in the source, so the calls
    are those of the logger only. *)
Definition sendMessageToClient (action value : string) : list Call :=
  let m := mkMessage action value in
  match json_Marshal m with
  | inr err => [Log_Error err]
  | inl msgJSON => [Log_Info ("sending message: " ++ msgJSON)]
  end.

(** One integer field of an "imagesettings" command: parsed by [Atoi],
    clamped, converted to [float64] and stored; skipped on a parse error. *)
Definition store_int_field (set : float64 -> ImageSettings -> ImageSettings)
    (field : string) (lower upper : Z) (s : ImageSettings) : ImageSettings :=
  match Atoi field with
  | Some v => set (float64_of_int (getValueInRange v lower upper)) s
  | None => s
  end.

(** The pixelation field: parsed by [ParseFloat], clamped and stored. *)
Definition store_pixelation (field : string) (s : ImageSettings)
    : ImageSettings :=
  match ParseFloat field with
  | Some pix =>
      set_pixelation
        (getFloatValueInRange pix (float64_of_int 1) (float64_of_int 10)) s
  | None => s
  end.

(** The body of [case "imagesettings"]. *)
Definition imagesettings_case (val : string) (s : ImageSettings)
    : ImageSettings :=
  match Split val ":" with
  | [s0; s1; s2; s3; s4] =>
      let s := store_int_field set_brightness s0 (-100) 100 s in
      let s := store_int_field set_contrast s1 (-100) 100 s in
      let s := store_int_field set_saturation s2 (-100) 100 s in
      let s := store_int_field set_blur s3 0 20 s in
      store_pixelation s4 s
  | _ => s
  end.

(** The body of [case "quality"]. *)
Definition quality_case (val : string) (s : ImageSettings) : ImageSettings :=
  match Atoi val with
  | Some 0 => set_quality highQ s
  | Some 2 => set_quality lowQ s
  | Some _ => set_quality mediumQ s
  | None => s
  end.

(** The [switch cmd.Cmd] statement of [commandLoop]: the program after the
    writes of the case itself, and the calls the case makes. *)
Definition commandLoop_switch (cmd : Command) (p : Program)
    : Program * list Call :=
  let c := Cmd cmd in
  if String.eqb c "" then
    (p, [Orbit_OnCursorPos (X cmd) (Y cmd)])
  else if String.eqb c "mousedown" then
    let p := if Moved cmd then with_imageSettings (set_isNavigating true) p
             else p in
    (p, [Orbit_OnMouse (X cmd) (Y cmd) window.Press
           (mapMouseButton (Val cmd))])
  else if String.eqb c "zoom" then
    (p, [Orbit_OnScroll (X cmd)
           (SFdiv 24 128 (SFopp (Y cmd)) scrollFactor)])
  else if String.eqb c "mouseup" then
    (with_imageSettings (set_isNavigating false) p,
     Orbit_OnMouse (X cmd) (Y cmd) window.Release
       (mapMouseButton (Val cmd))
     :: (if String.eqb (Val cmd) "0" && negb (Moved cmd)
         then [selectNode (X cmd) (Y cmd) (Ctrl cmd)] else []))
  else if String.eqb c "hide" then
    (p, (map (fun inode => Node_SetVisible inode false)
             (selectionBuffer (renderingApp p)) ++ [resetSelection])%list)
  else if String.eqb c "unhide" then
    (p, map (fun kv => Node_SetVisible (snd kv) true)
            (map_to_list (nodeBuffer (renderingApp p))))
  else if String.eqb c "userdata" then
    match nodeBuffer (renderingApp p) !! Val cmd with
    | Some node => (p, sendMessageToClient "userdata" (UserData node))
    | None => (p, [])
    end
  else if String.eqb c "keydown" then
    (p, [Orbit_OnKey window.Press (mapKey (Val cmd))])
  else if String.eqb c "keyup" then
    (p, [Orbit_OnKey window.Release (mapKey (Val cmd))])
  else if String.eqb c "view" then
    (p, [setCamera (Val cmd)])
  else if String.eqb c "zoomextent" then
    (p, [zoomToExtent])
  else if String.eqb c "focus" then
    (p, [focusOnSelection])
  else if String.eqb c "invert" then
    (with_imageSettings
       (fun s => if invert s then set_invert false s else set_invert true s) p,
     [])
  else if String.eqb c "imagesettings" then
    (with_imageSettings (imagesettings_case (Val cmd)) p, [])
  else if String.eqb c "quality" then
    (with_imageSettings (quality_case (Val cmd)) p, [])
  else if String.eqb c "fov" then
    match Atoi (Val cmd) with
    | Some fov =>
        (p, [CameraPersp_SetFov (float32_of_int (getValueInRange fov 5 120))])
    | None => (p, [])
    end
  else if String.eqb c "debug" then
    (if Debug (renderingApp p) then set_Debug false p else set_Debug true p, [])
  else if String.eqb c "close" then
    (p, [Log_Info "close"; Window_SetShouldClose true])
  else
    (p, [Log_Info ("Unknown Command: " ++ c)]).

(** One iteration of the [for] loop of [commandLoop] on an inbound message.
    [decoded] is what [json.Unmarshal(message, &cmd)] leaves in [cmd]
    (starting from [Command{}]) and the error it returns. *)
Definition commandLoop_body (decoded : Command * option string) (p : Program)
    : Program * list Call :=
  let '(cmd, err) := decoded in
  let on_err := match err with Some e => [Log_Error e] | None => [] end in
  let on_cmd := if negb (String.eqb (Cmd cmd) "")
                then [Log_Info_received cmd] else [] in
  let '(p', calls) := commandLoop_switch cmd p in
  (p', (on_err ++ on_cmd ++ calls)%list).

(** Modelled from the spec: the methods of [RenderingApp] that the loop
    calls ([selectNode], [resetSelection], [setCamera], [zoomToExtent],
    [focusOnSelection]) are defined in other files of the package.  The
    specification has "hide" clear the selection afterwards, has a click
    perform a selection pick at (x, y), puts the camera with the engine, and
    has the settings written by the dispatcher alone and the digest by the
    gate alone.  So [resetSelection] empties [selectionBuffer], [selectNode]
    replaces it by what the pick gives, and no other call writes a field of
    the model.  What a pick gives depends on the scene and on the camera,
    which the engine holds: [picked done x y multiselect app] is the
    selection after [selectNode(x, y, multiselect)], where [done] lists the
    calls made before it and [app] is the application object at the call. *)
Variable picked :
  list Call -> float32 -> float32 -> bool -> RenderingApp -> list Node.

(** The program after a call, [done] being the calls made before it. *)
Definition after_call (done : list Call) (c : Call) (p : Program) : Program :=
  match c with
  | selectNode x y multiselect =>
      set_selectionBuffer (picked done x y multiselect (renderingApp p)) p
  | resetSelection => set_selectionBuffer [] p
  | _ => p
  end.

(** The program after a sequence of calls, in order. *)
Fixpoint after_calls (done calls : list Call) (p : Program) : Program :=
  match calls with
  | [] => p
  | c :: rest => after_calls (done ++ [c])%list rest (after_call done c p)
  end.

(** [commandLoop] on the messages received so far, [done] being the calls
    made before them: the loop never exits, so a run is the fold of its body
    over the inbound messages.  In every case of the [switch] the call of a
    method of the application is the last statement, so the methods called
    by an iteration are followed after the writes of its case. *)
Fixpoint commandLoop_from (done : list Call)
    (inbound : list (Command * option string)) (p : Program)
    : Program * list Call :=
  match inbound with
  | [] => (p, [])
  | m :: rest =>
      let '(p1, calls1) := commandLoop_body m p in
      let '(p2, calls2) :=
        commandLoop_from (done ++ calls1)%list rest
          (after_calls done calls1 p1) in
      (p2, (calls1 ++ calls2)%list)
  end.

(** [commandLoop] from its first message on. *)
Definition commandLoop (inbound : list (Command * option string))
    (p : Program) : Program * list Call :=
  commandLoop_from [] inbound p.

End Renderer.

(** ** renderer/message.go: the screenshot and its dedup gate *)

(** *** [crypto/md5]

    [md5.Sum] as RFC 1321 defines it, on 32-bit words held in [Z] with the
    wrap-around written out. *)
Module md5.

Definition w32 (x : Z) : Z := Z.land x 4294967295.

Definition add32 (x y : Z) : Z := w32 (x + y).

Definition not32 (x : Z) : Z := Z.lxor x 4294967295.

Definition rotl32 (x n : Z) : Z :=
  w32 (Z.lor (Z.shiftl x n) (Z.shiftr x (32 - n))).

(** [floor(2^32 * abs(sin(i + 1)))] for [i] from 0 to 63. *)
Definition K : list Z := [
  3614090360; 3905402710; 606105819; 3250441966;
  4118548399; 1200080426; 2821735955; 4249261313;
  1770035416; 2336552879; 4294925233; 2304563134;
  1804603682; 4254626195; 2792965006; 1236535329;
  4129170786; 3225465664; 643717713; 3921069994;
  3593408605; 38016083; 3634488961; 3889429448;
  568446438; 3275163606; 4107603335; 1163531501;
  2850285829; 4243563512; 1735328473; 2368359562;
  4294588738; 2272392833; 1839030562; 4259657740;
  2763975236; 1272893353; 4139469664; 3200236656;
  681279174; 3936430074; 3572445317; 76029189;
  3654602809; 3873151461; 530742520; 3299628645;
  4096336452; 1126891415; 2878612391; 4237533241;
  1700485571; 2399980690; 4293915773; 2240044497;
  1873313359; 4264355552; 2734768916; 1309151649;
  4149444226; 3174756917; 718787259; 3951481745
].

(** The per-round left-rotation amounts. *)
Definition shifts : list Z := [
  7; 12; 17; 22; 7; 12; 17; 22; 7; 12; 17; 22; 7; 12; 17; 22;
  5; 9; 14; 20; 5; 9; 14; 20; 5; 9; 14; 20; 5; 9; 14; 20;
  4; 11; 16; 23; 4; 11; 16; 23; 4; 11; 16; 23; 4; 11; 16; 23;
  6; 10; 15; 21; 6; 10; 15; 21; 6; 10; 15; 21; 6; 10; 15; 21
].

Definition state : Type := (Z * Z * Z * Z)%type.

Definition init : state := (1732584193, 4023233417, 2562383102, 271733878).

(** Operation [i] (0 to 63) on the sixteen words [M] of a block. *)
Definition step (M : list Z) (st : state) (i : nat) : state :=
  let '(a, b, c, d) := st in
  let iz := Z.of_nat i in
  let '(f, g) :=
    if iz <? 16 then
      (Z.lor (Z.land b c) (Z.land (not32 b) d), iz)
    else if iz <? 32 then
      (Z.lor (Z.land d b) (Z.land (not32 d) c), (5 * iz + 1) mod 16)
    else if iz <? 48 then
      (Z.lxor (Z.lxor b c) d, (3 * iz + 5) mod 16)
    else
      (Z.lxor c (Z.lor b (not32 d)), (7 * iz) mod 16) in
  let f := add32 (add32 (add32 f a) (nth i K 0)) (nth (Z.to_nat g) M 0) in
  (d, add32 b (rotl32 f (nth i shifts 0)), b, c).

(** Little-endian words of a block of bytes. *)
Fixpoint words (bs : list Z) : list Z :=
  match bs with
  | b0 :: b1 :: b2 :: b3 :: rest =>
      (b0 + 256 * b1 + 65536 * b2 + 16777216 * b3) :: words rest
  | _ => []
  end.

Definition block (st : state) (bs : list Z) : state :=
  let '(a0, b0, c0, d0) := st in
  let '(a, b, c, d) := fold_left (step (words bs)) (seq 0 64) st in
  (add32 a0 a, add32 b0 b, add32 c0 c, add32 d0 d).

(** The blocks of 64 bytes of a padded message. *)
Fixpoint blocks (n : nat) (st : state) (bs : list Z) : state :=
  match n with
  | O => st
  | S n' => blocks n' (block st (firstn 64 bs)) (skipn 64 bs)
  end.

Definition le_bytes (count : nat) (x : Z) : list Z :=
  map (fun i => Z.land (Z.shiftr x (8 * Z.of_nat i)) 255) (seq 0 count).

(** Padding: a one bit, zero bits up to 56 modulo 64 bytes, then the length
    in bits as a 64-bit little-endian integer. *)
Definition pad (bs : list Z) : list Z :=
  let len := Z.of_nat (length bs) in
  (bs ++ [128] ++ repeat 0 (Z.to_nat ((55 - len) mod 64))
      ++ le_bytes 8 ((8 * len) mod 2 ^ 64))%list.

Definition byte_of_Z (z : Z) : byte :=
  match Byte.of_N (Z.to_N z) with
  | Some b => b
  | None => x00
  end.

Definition Z_of_byte (b : byte) : Z := Z.of_N (Byte.to_N b).

(** [md5.Sum(data)]: the 16 bytes of the digest. *)
Definition Sum (data : list byte) : list byte :=
  let padded := pad (map Z_of_byte data) in
  let '(a, b, c, d) := blocks (length padded / 64) init padded in
  map byte_of_Z
    (le_bytes 4 a ++ le_bytes 4 b ++ le_bytes 4 c ++ le_bytes 4 d)%list.

End md5.

(** The bytes of an ASCII string, for writing frames down. *)
Definition bytes_of_string (s : string) : list byte :=
  map byte_of_ascii (list_ascii_of_string s).

(** [a == b] on byte arrays. *)
Fixpoint bytes_eqb (a b : list byte) : bool :=
  match a, b with
  | [], [] => true
  | x :: a', y :: b' => Byte.eqb x y && bytes_eqb a' b'
  | _, _ => false
  end.

(** The zero value of [var md5SumBuffer [16]byte]. *)
Definition md5SumBuffer_zero : list byte := repeat x00 16.

(** What the encoder ([png.Encode], [jpeg.Encode] or [libjpeg.Encode],
    chosen by [imageSettings.encoder]) returns for the frame of a render
    tick: the bytes written to [buf], or a non-nil [err].  The steps before
    it (pixel read-back and the [imaging] transforms) run in external
    libraries and only feed the encoder. *)
Inductive EncodeResult : Type :=
  | Encoded (imageBit : list byte)
  | EncodeError (err : string).

(** How a call ends: it returns, or it panics; both with the calls made. *)
Inductive Outcome : Type :=
  | Returned (p : Program) (calls : list Call)
  | Panicked (calls : list Call) (err : string).

(** [makeScreenShot], from the encoder's result on. *)
Definition makeScreenShot (enc : EncodeResult) (p : Program) : Outcome :=
  match enc with
  | EncodeError err => Panicked [] err
  | Encoded imageBit =>
      let md := md5.Sum imageBit in
      if negb (bytes_eqb (md5SumBuffer p) md) then
        Returned (set_md5SumBuffer md p)
          ((if Debug (renderingApp p)
            then [AddToByteBuffer (Z.of_nat (length imageBit))] else [])
           ++ [cImagestream_send imageBit])%list
      else Returned p []
  end.

(** [onRender], the handler of the render event. *)
Definition onRender (enc : EncodeResult) (p : Program) : Outcome :=
  makeScreenShot enc p.

(** A run of render ticks, one [onRender] each; it stops at the first
    panic. *)
Fixpoint renderTicks (ticks : list EncodeResult) (p : Program) : Outcome :=
  match ticks with
  | [] => Returned p []
  | enc :: rest =>
      match onRender enc p with
      | Panicked calls err => Panicked calls err
      | Returned p1 calls1 =>
          match renderTicks rest p1 with
          | Panicked calls2 err => Panicked (calls1 ++ calls2)%list err
          | Returned p2 calls2 => Returned p2 (calls1 ++ calls2)%list
          end
      end
  end.

(** The frames a trace pushes to the image stream, in order. *)
Fixpoint transmitted (calls : list Call) : list (list byte) :=
  match calls with
  | [] => []
  | cImagestream_send imageBit :: rest => imageBit :: transmitted rest
  | _ :: rest => transmitted rest
  end.

(** ** Reference instances of the library functions

    The theorems below hold for every [ParseFloat] and [json_Marshal]; the
    concrete evaluations use these two instances.

    [ParseFloat_decimal] is [strconv.ParseFloat(s, 64)] on the special values
    (["NaN"], and ["Inf"] or ["Infinity"] with an optional sign, in any
    letter case) and on decimal literals: an optional sign, digits with an
    optional fraction, and an optional exponent.  The value is the nearest
    binary64 number, ties to even; a value that overflows is an error.
    Hexadecimal literals and digit separators are not covered. *)
Definition lower (c : ascii) : ascii :=
  let n := N_of_ascii c in
  if (65 <=? n)%N && (n <=? 90)%N then ascii_of_N (n + 32) else c.

Fixpoint lower_string (s : string) : string :=
  match s with
  | EmptyString => EmptyString
  | String c s' => String (lower c) (lower_string s')
  end.

(** The leading decimal digits of [s]: their value continuing from [acc],
    how many there are, and the rest of [s]. *)
Fixpoint read_digits (s : string) (acc : Z) (count : Z) : Z * Z * string :=
  match s with
  | EmptyString => (acc, count, s)
  | String c s' =>
      match digit_of c with
      | Some d => read_digits s' (acc * 10 + d) (count + 1)
      | None => (acc, count, s)
      end
  end.

(** [m * 10 ^ dexp] with the sign [neg], rounded to binary64. *)
Definition decimal_to_float64 (neg : bool) (m dexp : Z) : float64 :=
  if m =? 0 then S754_zero neg
  else if 0 <=? dexp then
    binary_normalize 53 1024 (if neg then - (m * 10 ^ dexp) else m * 10 ^ dexp)
      0 false
  else
    let '(q, e, l) := SFdiv_core_binary 53 1024 m 0 (10 ^ (- dexp)) 0 in
    binary_round_aux 53 1024 neg q e l.

Definition read_sign (s : string) : bool * string :=
  match s with
  | String "-" s' => (true, s')
  | String "+" s' => (false, s')
  | _ => (false, s)
  end.

Definition ParseFloat_decimal (s : string) : option float64 :=
  let '(neg, body) := read_sign s in
  let lbody := lower_string body in
  if String.eqb (lower_string s) "nan" then Some S754_nan
  else if String.eqb lbody "inf" || String.eqb lbody "infinity"
  then Some (S754_infinity neg)
  else
    let '(m1, n1, rest1) := read_digits body 0 0 in
    let '(m2, n2, rest2) :=
      match rest1 with
      | String "." frac => read_digits frac m1 0
      | _ => (m1, 0, rest1)
      end in
    if n1 + n2 =? 0 then None
    else
      let exponent :=
        match rest2 with
        | EmptyString => Some 0
        | String c erest =>
            if Ascii.eqb (lower c) "e" then
              let '(eneg, edigits) := read_sign erest in
              match read_digits edigits 0 0 with
              | (ev, en, EmptyString) =>
                  if en =? 0 then None
                  else Some (if eneg then - ev else ev)
              | _ => None
              end
            else None
        end in
      match exponent with
      | None => None
      | Some e =>
          match decimal_to_float64 neg m2 (e - n2) with
          | S754_infinity _ => None
          | v => Some v
          end
      end.

(** [json_Marshal_plain] is [json.Marshal] on a [Message] whose strings are
    printable ASCII without the characters JSON escapes (the double quote,
    the backslash, and the angle brackets and ampersand Go escapes). *)
Definition dquote : string := String (ascii_of_nat 34) EmptyString.

Definition json_Marshal_plain (m : Message) : string + string :=
  inl ("{" ++ dquote ++ "action" ++ dquote ++ ":" ++ dquote ++ Action m
       ++ dquote ++ "," ++ dquote ++ "value" ++ dquote ++ ":" ++ dquote
       ++ Value m ++ dquote ++ "}")%string.

(** Settings at the neutral values, and a program around them. *)
Definition ImageSettings_neutral : ImageSettings :=
  mkImageSettings (float64_of_int 0) (float64_of_int 0) (float64_of_int 0)
    (float64_of_int 0) (float64_of_int 1) false highQ "png" false.

Definition Program_initial : Program :=
  mkProgram (mkRenderingApp ImageSettings_neutral [] ∅ false) md5SumBuffer_zero.

(** The declared ranges of the numeric fields of [ImageSettings]. *)
Definition f_in_range (lo hi : Z) (v : float64) : bool :=
  f_le (float64_of_int lo) v && f_le v (float64_of_int hi).

Definition in_range (s : ImageSettings) : bool :=
  f_in_range (-100) 100 (brightness s) && f_in_range (-100) 100 (contrast s)
  && f_in_range (-100) 100 (saturation s) && f_in_range 0 20 (blur s)
  && f_in_range 1 10 (pixelation s).

(** The settings of a program. *)
Definition settings (p : Program) : ImageSettings :=
  imageSettings (renderingApp p).

(** The command [Command{Cmd: c, Val: v}]. *)
Definition command (c v : string) : Command :=
  mkCommand (S754_zero false) (S754_zero false) c v false false.

(** The command
    [Command{X: 10, Y: 20, Cmd: "mouseup", Val: "0", Moved: false, Ctrl: false}]. *)
Definition command_mouseup_10_20 : Command :=
  mkCommand (float32_of_int 10) (float32_of_int 20) "mouseup" "0" false false.

(** The numeric fields of the settings, and the state outside the settings
    and the debug flag. *)
Definition numeric_fields (s : ImageSettings)
    : float64 * float64 * float64 * float64 * float64 :=
  (brightness s, contrast s, saturation s, blur s, pixelation s).

Definition outside_settings (p : Program)
    : list Node * gmap string Node * list byte :=
  (selectionBuffer (renderingApp p), nodeBuffer (renderingApp p),
   md5SumBuffer p).

(** A program whose node buffer holds one node, under the identifier
    ["n1"]. *)
Definition Program_one_node : Program :=
  mkProgram
    (mkRenderingApp ImageSettings_neutral []
       {[ "n1" := mkNode 1 "wall" ]} false)
    md5SumBuffer_zero.

(** The binary64 number 0.5. *)
Definition float64_half : float64 := S754_finite false 4503599627370496 (-53).

(** An inbound command carries NaN when it is an "imagesettings" command of
    five fields whose pixelation field [ParseFloat] reads as NaN. *)
Definition carries_nan (ParseFloat : string -> option float64)
    (cmd : Command) : bool :=
  String.eqb (Cmd cmd) "imagesettings" &&
  match Split (Val cmd) ":" with
  | [_; _; _; _; s4] =>
      match ParseFloat s4 with
      | Some v => is_nan v
      | None => false
      end
  | _ => false
  end.

(** The calls an outcome carries. *)
Definition Outcome_calls (o : Outcome) : list Call :=
  match o with
  | Returned _ calls => calls
  | Panicked calls _ => calls
  end.

(** Bytes written in hexadecimal, two digits each. *)
Definition hex_digit (c : ascii) : Z :=
  let n := Z.of_N (N_of_ascii c) in
  if (48 <=? n) && (n <=? 57) then n - 48
  else if (97 <=? n) && (n <=? 102) then n - 87
  else 0.

Fixpoint bytes_of_hex (s : string) : list byte :=
  match s with
  | String hi (String lo rest) =>
      md5.byte_of_Z (16 * hex_digit hi + hex_digit lo) :: bytes_of_hex rest
  | _ => []
  end.

(** Two frames of one byte each. *)
Definition frame_A : list byte := bytes_of_string "A".
Definition frame_B : list byte := bytes_of_string "B".

(** Two byte sequences of 128 bytes that differ and have the same MD5
    digest (the collision published by Wang and Yu in 2005). *)
Definition collision_1 : list byte :=
  bytes_of_hex
    ("d131dd02c5e6eec4693d9a0698aff95c2fcab58712467eab4004583eb8fb7f89"
     ++ "55ad340609f4b30283e488832571415a085125e8f7cdc99fd91dbdf280373c5b"
     ++ "d8823e3156348f5bae6dacd436c919c6dd53e2b487da03fd02396306d248cda0"
     ++ "e99f33420f577ee8ce54b67080a80d1ec69821bcb6a8839396f9652b6ff72a70")%string.

Definition collision_2 : list byte :=
  bytes_of_hex
    ("d131dd02c5e6eec4693d9a0698aff95c2fcab50712467eab4004583eb8fb7f89"
     ++ "55ad340609f4b30283e4888325f1415a085125e8f7cdc99fd91dbd7280373c5b"
     ++ "d8823e3156348f5bae6dacd436c919c6dd53e23487da03fd02396306d248cda0"
     ++ "e99f33420f577ee8ce54b67080280d1ec69821bcb6a8839396f965ab6ff72a70")%string.

(** The command kinds the [switch] of [commandLoop] has a case for. *)
Definition known_commands : list string :=
  [""; "mousedown"; "zoom"; "mouseup"; "hide"; "unhide"; "userdata";
   "keydown"; "keyup"; "view"; "zoomextent"; "focus"; "invert";
   "imagesettings"; "quality"; "fov"; "debug"; "close"].

(** ** Notions the further properties are stated with *)

(** The frames of a run that a gate with one remembered digest lets
    through: a frame passes when its digest differs from the digest of the
    frame before it ([last] for the first frame). *)
Fixpoint changed_frames (last : list byte) (frames : list (list byte))
    : list (list byte) :=
  match frames with
  | [] => []
  | f :: rest =>
      if bytes_eqb last (md5.Sum f) then changed_frames (md5.Sum f) rest
      else f :: changed_frames (md5.Sum f) rest
  end.

(** Each frame of [frames] has a digest other than that of the frame before
    it ([last] for the first frame). *)
Fixpoint digest_chain (last : list byte) (frames : list (list byte)) : Prop :=
  match frames with
  | [] => True
  | f :: rest => md5.Sum f <> last /\ digest_chain (md5.Sum f) rest
  end.

(** The sizes a trace hands to [AddToByteBuffer], in order. *)
Fixpoint byte_buffer_sizes (calls : list Call) : list Z :=
  match calls with
  | [] => []
  | AddToByteBuffer size :: rest => size :: byte_buffer_sizes rest
  | _ :: rest => byte_buffer_sizes rest
  end.

(** Calls of the capture path: the two channels and the byte-size history. *)
Definition is_capture_call (c : Call) : bool :=
  match c with
  | AddToByteBuffer _ | cData_send _ | cImagestream_send _ => true
  | _ => false
  end.

(** The commands of an inbound sequence. *)
Definition commands (inbound : list (Command * option string))
    : list Command :=
  map fst inbound.

(** A "mousedown" command with [Moved] set starts a drag; a "mouseup"
    command ends one. *)
Definition starts_drag (cmd : Command) : bool :=
  String.eqb (Cmd cmd) "mousedown" && Moved cmd.

Definition ends_drag (cmd : Command) : bool :=
  String.eqb (Cmd cmd) "mouseup".

(** Node identity. *)
Definition Node_eqb (n m : Node) : bool :=
  Pos.eqb (node_ptr n) (node_ptr m) && String.eqb (UserData n) (UserData m).

(** The visibility a trace leaves a node with: the state of the last
    [SetVisible] call on it, or [before] when the trace has none. *)
Fixpoint visibility (n : Node) (calls : list Call) (before : option bool)
    : option bool :=
  match calls with
  | [] => before
  | Node_SetVisible m state :: rest =>
      visibility n rest (if Node_eqb m n then Some state else before)
  | _ :: rest => visibility n rest before
  end.

(** The number of occurrences of a byte in a string. *)
Fixpoint count_byte (c : ascii) (s : string) : nat :=
  match s with
  | EmptyString => O
  | String c' s' =>
      if Ascii.eqb c' c then S (count_byte c s') else count_byte c s'
  end.

(** A program with two selected nodes and two nodes in the node buffer. *)
Definition Program_scene : Program :=
  mkProgram
    (mkRenderingApp ImageSettings_neutral
       [mkNode 1 "wall"; mkNode 2 "door"]
       {[ "n1" := mkNode 1 "wall"; "n3" := mkNode 3 "roof" ]} false)
    md5SumBuffer_zero.

(** The sign of a float: [None] for NaN. *)
Definition sign_bit (x : spec_float) : option bool :=
  match x with
  | S754_zero s | S754_infinity s | S754_finite s _ _ => Some s
  | S754_nan => None
  end.

(** A click: a "mouseup" command of the primary button with no movement
    since the button went down. *)
Definition is_click (cmd : Command) : bool :=
  String.eqb (Cmd cmd) "mouseup" && String.eqb (Val cmd) "0"
  && negb (Moved cmd).

(** The selection picks of a trace: position and extend flag, in order. *)
Fixpoint picks (calls : list Call) : list (float32 * float32 * bool) :=
  match calls with
  | [] => []
  | selectNode x y multi :: rest => (x, y, multi) :: picks rest
  | _ :: rest => picks rest
  end.

(** All commands of an inbound sequence have the kind [kind]. *)
Definition all_of_kind (kind : string)
    (inbound : list (Command * option string)) : bool :=
  forallb (fun c => String.eqb (Cmd c) kind) (commands inbound).

(** The calls that write the selection: the two methods of the application
    that [after_call] follows. *)
Definition is_selection_call (c : Call) : bool :=
  match c with
  | selectNode _ _ _ | resetSelection => true
  | _ => false
  end.

(** A "hide" command. *)
Definition is_hide (cmd : Command) : bool := String.eqb (Cmd cmd) "hide".

(** A reference pick: the ray meets the node [n] wherever it is cast; the
    selection becomes [n] alone, or the old selection with [n] in front when
    it is extended. *)
Definition picked_node (n : Node) (done : list Call) (x y : float32)
    (multiselect : bool) (app : RenderingApp) : list Node :=
  if multiselect then n :: selectionBuffer app else [n].

(** The reference pick at the node "roof". *)
Definition picked_roof
    : list Call -> float32 -> float32 -> bool -> RenderingApp -> list Node :=
  picked_node (mkNode 3 "roof").

(** Two floats are the same datum. *)
Definition SF_same (x y : spec_float) : bool :=
  match x, y with
  | S754_zero s, S754_zero t => Bool.eqb s t
  | S754_infinity s, S754_infinity t => Bool.eqb s t
  | S754_nan, S754_nan => true
  | S754_finite s m e, S754_finite t n f =>
      Bool.eqb s t && Pos.eqb m n && Z.eqb e f
  | _, _ => false
  end.

(** The integers from [-n] to [n]. *)
Definition integers_within (n : Z) : list Z :=
  map (fun k => Z.of_nat k - n) (seq 0 (Z.to_nat (2 * n + 1))).

(** * Properties *)

(** ** The models of the library functions on known values *)

Example Atoi_examples :
  Atoi "150" = Some 150 /\ Atoi "-5" = Some (-5) /\ Atoi "+2" = Some 2 /\
  Atoi "00" = Some 0 /\ Atoi "" = None /\ Atoi "-" = None /\
  Atoi "1.5" = None /\ Atoi "9223372036854775807" = Some maxInt /\
  Atoi "9223372036854775808" = None /\ Atoi "-9223372036854775808" = Some minInt.
Proof. vm_compute. repeat split. Qed.

Example Split_examples :
  Split "150:-5:0:25:0.5" ":" = ["150"; "-5"; "0"; "25"; "0.5"] /\
  Split "" ":" = [""] /\ Split "a:" ":" = ["a"; ""] /\ Split "::" ":" = [""; ""; ""].
Proof. vm_compute. repeat split. Qed.

Example md5_Sum_examples :
  map md5.Z_of_byte (md5.Sum (bytes_of_string "")) =
    [212; 29; 140; 217; 143; 0; 178; 4; 233; 128; 9; 152; 236; 248; 66; 126] /\
  map md5.Z_of_byte (md5.Sum (bytes_of_string "abc")) =
    [144; 1; 80; 152; 60; 210; 79; 176; 214; 150; 63; 125; 40; 225; 127; 114] /\
  map md5.Z_of_byte (md5.Sum (map md5.byte_of_Z (map Z.of_nat (seq 0 70)))) =
    [95; 31; 95; 100; 184; 68; 0; 251; 154; 214; 216; 236; 217; 193; 66; 160].
Proof. vm_compute. repeat split. Qed.

Example ParseFloat_decimal_examples :
  ParseFloat_decimal "0.5" = Some (S754_finite false 4503599627370496 (-53)) /\
  ParseFloat_decimal "0.1" = Some (S754_finite false 7205759403792794 (-56)) /\
  ParseFloat_decimal "NaN" = Some S754_nan /\
  ParseFloat_decimal "-Inf" = Some (S754_infinity true) /\
  ParseFloat_decimal "1e400" = None /\
  ParseFloat_decimal "" = None /\
  ParseFloat_decimal "1.5x" = None.
Proof. vm_compute. repeat split. Qed.

(** ** Comparison of floats *)

Lemma SFcompare_antisym (x y : spec_float) :
  SFcompare y x = option_map CompOpp (SFcompare x y).
Proof.
  destruct x as [sx | sx | | sx mx ex], y as [sy | sy | | sy my ey];
    cbn [SFcompare option_map];
    try reflexivity;
    try (destruct sx; reflexivity);
    try (destruct sy; reflexivity);
    try (destruct sx, sy; reflexivity).
  destruct sx, sy; cbn [CompOpp]; try reflexivity;
    rewrite (Z.compare_antisym ey ex);
    destruct (ey ?= ex); cbn [CompOpp]; try reflexivity;
    change (Pos.compare_cont Eq my mx) with (Pos.compare my mx);
    change (Pos.compare_cont Eq mx my) with (Pos.compare mx my);
    rewrite (Pos.compare_antisym my mx);
    rewrite ?CompOpp_involutive; reflexivity.
Qed.

Lemma SFcompare_refl (x : spec_float) :
  is_nan x = false -> SFcompare x x = Some Eq.
Proof.
  destruct x as [s | s | | s m e]; cbn; try discriminate; intros _;
    try (destruct s; reflexivity).
  destruct s; rewrite Z.compare_refl;
    change (Pos.compare_cont Eq m m) with (Pos.compare m m);
    rewrite Pos.compare_refl; reflexivity.
Qed.

Lemma SFcompare_nan_iff (x y : spec_float) :
  SFcompare x y = None <-> is_nan x = true \/ is_nan y = true.
Proof.
  destruct x, y; cbn; split; intros H;
    try discriminate; try (left; reflexivity); try (right; reflexivity);
    try reflexivity; destruct H; discriminate.
Qed.

Lemma f_le_refl (x : float64) : is_nan x = false -> f_le x x = true.
Proof.
  intros H. unfold f_le, SFleb. now rewrite (SFcompare_refl x H).
Qed.

Lemma f_le_not_nan (x y : float64) :
  f_le x y = true -> is_nan x = false /\ is_nan y = false.
Proof.
  unfold f_le, SFleb. destruct x, y; cbn; try discriminate; auto.
Qed.

(** Among numbers, [v > hi] false means [v <= hi]. *)
Lemma f_gt_false_le (v hi : float64) :
  is_nan v = false -> is_nan hi = false -> f_gt v hi = false -> f_le v hi = true.
Proof.
  unfold f_gt, f_le, SFltb, SFleb. intros Hv Hh.
  rewrite (SFcompare_antisym v hi).
  destruct (SFcompare v hi) as [[ | | ] | ] eqn:E; cbn; try congruence.
  apply SFcompare_nan_iff in E. destruct E; congruence.
Qed.

(** Among numbers, [v < lo] false means [lo <= v]. *)
Lemma f_lt_false_ge (v lo : float64) :
  is_nan v = false -> is_nan lo = false -> f_lt v lo = false -> f_le lo v = true.
Proof.
  unfold f_lt, f_le, SFltb, SFleb. intros Hv Hl.
  rewrite (SFcompare_antisym v lo).
  destruct (SFcompare v lo) as [[ | | ] | ] eqn:E; cbn; try congruence.
  apply SFcompare_nan_iff in E. destruct E; congruence.
Qed.

(** ** The clamp primitives *)

(** The integer clamp is range-bounded. *)
Lemma getValueInRange_bounds (v lo hi : Z) :
  lo <= hi -> lo <= getValueInRange v lo hi <= hi.
Proof.
  intros H. unfold getValueInRange.
  destruct (Z.gtb_spec v hi), (Z.ltb_spec v lo); lia.
Qed.

(** The integer clamp is idempotent. *)
Lemma getValueInRange_idempotent (v lo hi : Z) :
  lo <= hi ->
  getValueInRange (getValueInRange v lo hi) lo hi = getValueInRange v lo hi.
Proof.
  intros H. unfold getValueInRange.
  destruct (Z.gtb_spec v hi), (Z.ltb_spec v lo);
    repeat match goal with
           | |- context [?a >? ?b] => destruct (Z.gtb_spec a b)
           | |- context [?a <? ?b] => destruct (Z.ltb_spec a b)
           end; lia.
Qed.

(** A value already in range is returned as it is. *)
Lemma getValueInRange_id (v lo hi : Z) :
  lo <= v <= hi -> getValueInRange v lo hi = v.
Proof.
  intros H. unfold getValueInRange.
  destruct (Z.gtb_spec v hi), (Z.ltb_spec v lo); lia.
Qed.

(** The float clamp is range-bounded on every value that is a number. *)
Lemma getFloatValueInRange_bounds (v lo hi : float64) :
  f_le lo hi = true -> is_nan v = false ->
  f_le lo (getFloatValueInRange v lo hi) = true /\
  f_le (getFloatValueInRange v lo hi) hi = true.
Proof.
  intros Hb Hv. destruct (f_le_not_nan _ _ Hb) as [Hlo Hhi].
  unfold getFloatValueInRange.
  destruct (f_gt v hi) eqn:Egt.
  - split; [exact Hb | now apply f_le_refl].
  - destruct (f_lt v lo) eqn:Elt.
    + split; [now apply f_le_refl | exact Hb].
    + split; [now apply f_lt_false_ge | now apply f_gt_false_le].
Qed.

(** The float clamp never returns NaN for a number. *)
Lemma getFloatValueInRange_not_nan (v lo hi : float64) :
  f_le lo hi = true -> is_nan v = false ->
  is_nan (getFloatValueInRange v lo hi) = false.
Proof.
  intros Hb Hv. destruct (f_le_not_nan _ _ Hb) as [Hlo Hhi].
  unfold getFloatValueInRange.
  destruct (f_gt v hi); [exact Hhi | destruct (f_lt v lo); assumption].
Qed.

(** A float in range is returned as it is. *)
Lemma getFloatValueInRange_id (v lo hi : float64) :
  f_le lo v = true -> f_le v hi = true -> getFloatValueInRange v lo hi = v.
Proof.
  unfold getFloatValueInRange, f_gt, f_lt, f_le, SFleb, SFltb. intros H1 H2.
  rewrite (SFcompare_antisym v hi), (SFcompare_antisym lo v).
  destruct (SFcompare v hi) as [[ | | ] | ]; try discriminate;
    destruct (SFcompare lo v) as [[ | | ] | ]; try discriminate; reflexivity.
Qed.

(** The float clamp is idempotent on every value that is a number. *)
Lemma getFloatValueInRange_idempotent (v lo hi : float64) :
  f_le lo hi = true -> is_nan v = false ->
  getFloatValueInRange (getFloatValueInRange v lo hi) lo hi
  = getFloatValueInRange v lo hi.
Proof.
  intros Hb Hv.
  destruct (getFloatValueInRange_bounds v lo hi Hb Hv) as [H1 H2].
  now apply getFloatValueInRange_id.
Qed.

(** On integers, and on floats that are numbers, the clamp is
    range-bounded and idempotent for every pair of bounds with
    [lo <= hi]. *)
Theorem clamp_bounded_and_idempotent (v lo hi : Z) (x flo fhi : float64) :
  lo <= hi -> f_le flo fhi = true -> is_nan x = false ->
  lo <= getValueInRange v lo hi <= hi /\
  getValueInRange (getValueInRange v lo hi) lo hi = getValueInRange v lo hi /\
  f_le flo (getFloatValueInRange x flo fhi) = true /\
  f_le (getFloatValueInRange x flo fhi) fhi = true /\
  f_eq (getFloatValueInRange (getFloatValueInRange x flo fhi) flo fhi)
    (getFloatValueInRange x flo fhi) = true.
Proof.
  intros Hz Hf Hx.
  split; [ now apply getValueInRange_bounds | ].
  split; [ now apply getValueInRange_idempotent | ].
  destruct (getFloatValueInRange_bounds x flo fhi Hf Hx) as [H1 H2].
  split; [ exact H1 | split; [ exact H2 | ] ].
  rewrite getFloatValueInRange_idempotent by assumption.
  unfold f_eq, SFeqb. rewrite SFcompare_refl; [ reflexivity | ].
  now apply getFloatValueInRange_not_nan.
Qed.

(** C9 (the code departs from the claim): at NaN, with the bounds 1.0 and
    10.0 of the pixelation field, [getFloatValueInRange] returns NaN, which
    is not within the bounds, and the result of clamping twice does not
    compare equal to the result of clamping once. *)
Theorem C9_getFloatValueInRange_nan :
  f_le (float64_of_int 1) (float64_of_int 10) = true /\
  getFloatValueInRange S754_nan (float64_of_int 1) (float64_of_int 10)
  = S754_nan /\
  f_le (float64_of_int 1)
    (getFloatValueInRange S754_nan (float64_of_int 1) (float64_of_int 10))
  = false /\
  f_le (getFloatValueInRange S754_nan (float64_of_int 1) (float64_of_int 10))
    (float64_of_int 10)
  = false /\
  f_eq
    (getFloatValueInRange
       (getFloatValueInRange S754_nan (float64_of_int 1) (float64_of_int 10))
       (float64_of_int 1) (float64_of_int 10))
    (getFloatValueInRange S754_nan (float64_of_int 1) (float64_of_int 10))
  = false.
Proof. vm_compute. repeat split. Qed.

(** ** The command dispatcher *)

Section Dispatcher.

Variable ParseFloat : string -> option float64.
Variable json_Marshal : Message -> string + string.

Local Abbreviation switch := (commandLoop_switch ParseFloat json_Marshal).
Local Abbreviation body := (commandLoop_body ParseFloat json_Marshal).

(** Selects the case of the [switch] that a known [cmd.Cmd] takes. *)
Ltac take_case H :=
  unfold commandLoop_switch; cbv zeta; rewrite H;
  cbn [String.eqb Ascii.eqb Bool.eqb].

Lemma settings_with_imageSettings (f : ImageSettings -> ImageSettings)
    (p : Program) :
  settings (with_imageSettings f p) = f (settings p).
Proof. reflexivity. Qed.

(** An iteration changes the state as the [switch] alone does, and logs
    before the calls of the [switch]. *)
Lemma body_switch (cmd : Command) (err : option string) (p : Program) :
  fst (body (cmd, err) p) = fst (switch cmd p) /\
  snd (body (cmd, err) p) =
    ((match err with Some e => [Log_Error e] | None => [] end)
     ++ (if negb (String.eqb (Cmd cmd) "") then [Log_Info_received cmd] else [])
     ++ snd (switch cmd p))%list.
Proof.
  unfold commandLoop_body. destruct (switch cmd p) as [p' calls].
  split; reflexivity.
Qed.

(** C1 (the code departs from the claim): a message that fails to decode is
    logged and then dispatched all the same, as the command that
    [json.Unmarshal] left behind.  When the decoder left the zero command
    (a syntax error), the render engine receives a cursor event at (0, 0);
    when it left [Cmd = "debug"] next to a field of the wrong type, the
    debug flag is toggled. *)
Theorem C1_decode_error_is_dispatched (e : string) (p : Program) :
  (forall cmd,
     fst (body (cmd, Some e) p) = fst (body (cmd, None) p) /\
     snd (body (cmd, Some e) p) = Log_Error e :: snd (body (cmd, None) p)) /\
  body (Command_zero, Some e) p =
    (p, [Log_Error e; Orbit_OnCursorPos (S754_zero false) (S754_zero false)]) /\
  Debug (renderingApp (fst (body (command "debug" "", Some e) p)))
  = negb (Debug (renderingApp p)).
Proof.
  repeat split.
  - destruct (body_switch cmd (Some e) p) as [H1 _].
    destruct (body_switch cmd None p) as [H2 _]. congruence.
  - destruct (body_switch cmd (Some e) p) as [_ H1].
    destruct (body_switch cmd None p) as [_ H2].
    rewrite H1, H2. reflexivity.
  - unfold commandLoop_body, commandLoop_switch, command. cbn.
    destruct (Debug (renderingApp p)); reflexivity.
Qed.

(** C3 (amended): a "mouseup" command issues a release event with the
    mapped button and clears [isNavigating]; it performs a selection pick at
    (x, y), with [Ctrl] as extend-selection, if and only if the value is "0"
    (the code of the primary button) and [Moved] is false.  The command
    [{X:10, Y:20, Cmd:"mouseup", Val:"0", Moved:false, Ctrl:false}] triggers
    the release and then a pick at (10, 20) with extend false. *)
Theorem C3_mouseup_release_and_pick (cmd : Command) (p : Program) :
  Cmd cmd = "mouseup" ->
  snd (switch cmd p) =
    Orbit_OnMouse (X cmd) (Y cmd) window.Release
      (mapMouseButton (Val cmd))
    :: (if String.eqb (Val cmd) "0" && negb (Moved cmd)
        then [selectNode (X cmd) (Y cmd) (Ctrl cmd)] else []) /\
  isNavigating (settings (fst (switch cmd p))) = false /\
  (forall x y multi,
     In (selectNode x y multi) (snd (switch cmd p)) <->
     Val cmd = "0" /\ Moved cmd = false /\
     x = X cmd /\ y = Y cmd /\ multi = Ctrl cmd) /\
  snd (switch command_mouseup_10_20 p) =
    [Orbit_OnMouse (float32_of_int 10) (float32_of_int 20) window.Release
       window.MouseButtonLeft;
     selectNode (float32_of_int 10) (float32_of_int 20) false].
Proof.
  intros H. split; [ | split; [ | split ] ].
  - take_case H. reflexivity.
  - take_case H. reflexivity.
  - intros x y multi. take_case H. cbn [snd].
    destruct (String.eqb_spec (Val cmd) "0") as [Hv | Hv];
      destruct (Moved cmd); cbn; split;
      try (intros [Hc | [Hc | []]]; try discriminate Hc;
           injection Hc as <- <- <-; auto);
      try (intros [Hc | []]; discriminate Hc);
      try (intros (Hv' & Hm & -> & -> & ->); auto; congruence).
  - reflexivity.
Qed.

(** C4 (amended): a "quality" command whose value [strconv.Atoi] reads as 0
    sets the quality to High, as 2 to Low, and as any other integer to
    Medium; a value that is not an integer leaves the quality as it is.  In
    particular "0" sets High, "2" sets Low and "7" sets Medium. *)
Theorem C4_quality_by_parsed_value (cmd : Command) (p : Program) :
  Cmd cmd = "quality" ->
  quality (settings (fst (switch cmd p))) =
    match Atoi (Val cmd) with
    | Some 0 => highQ
    | Some 2 => lowQ
    | Some _ => mediumQ
    | None => quality (settings p)
    end /\
  (Val cmd = "0" -> quality (settings (fst (switch cmd p))) = highQ) /\
  (Val cmd = "2" -> quality (settings (fst (switch cmd p))) = lowQ) /\
  (Val cmd = "7" -> quality (settings (fst (switch cmd p))) = mediumQ).
Proof.
  intros H.
  assert (E : quality (settings (fst (switch cmd p))) =
              match Atoi (Val cmd) with
              | Some 0 => highQ
              | Some 2 => lowQ
              | Some _ => mediumQ
              | None => quality (settings p)
              end).
  { take_case H. cbn [fst]. rewrite settings_with_imageSettings.
    unfold quality_case.
    destruct (Atoi (Val cmd)) as [z | ]; [ | reflexivity ].
    destruct z as [ | q | q ]; try reflexivity.
    destruct q as [ q | q | ]; try reflexivity.
    destruct q; reflexivity. }
  split; [ exact E | ].
  repeat split; intros Hv; rewrite E, Hv; reflexivity.
Qed.

(** The "quality" case writes the quality field or nothing. *)
Lemma quality_case_frame (val : string) (s : ImageSettings) :
  quality_case val s = s \/ exists q, quality_case val s = set_quality q s.
Proof.
  unfold quality_case.
  destruct (Atoi val) as [z | ]; [ right | left; reflexivity ].
  destruct z as [ | q | q ]; try (eexists; reflexivity).
  destruct q as [ q | q | ]; try (eexists; reflexivity).
  destruct q; eexists; reflexivity.
Qed.

(** C10: a "quality" command changes at most the quality, an "invert"
    command only the invert flag and a "debug" command only the debug flag;
    the numeric fields, [isNavigating], the other settings, the buffers and
    [md5SumBuffer] are as before, and the [switch] calls no collaborator. *)
Theorem C10_settings_commands_frame (cmd : Command) (p : Program) :
  (Cmd cmd = "quality" ->
   numeric_fields (settings (fst (switch cmd p))) = numeric_fields (settings p)
   /\ isNavigating (settings (fst (switch cmd p))) = isNavigating (settings p)
   /\ invert (settings (fst (switch cmd p))) = invert (settings p)
   /\ encoder (settings (fst (switch cmd p))) = encoder (settings p)
   /\ Debug (renderingApp (fst (switch cmd p))) = Debug (renderingApp p)
   /\ outside_settings (fst (switch cmd p)) = outside_settings p
   /\ md5SumBuffer (fst (switch cmd p)) = md5SumBuffer p
   /\ snd (switch cmd p) = []) /\
  (Cmd cmd = "invert" ->
   invert (settings (fst (switch cmd p))) = negb (invert (settings p))
   /\ numeric_fields (settings (fst (switch cmd p))) = numeric_fields (settings p)
   /\ isNavigating (settings (fst (switch cmd p))) = isNavigating (settings p)
   /\ quality (settings (fst (switch cmd p))) = quality (settings p)
   /\ encoder (settings (fst (switch cmd p))) = encoder (settings p)
   /\ Debug (renderingApp (fst (switch cmd p))) = Debug (renderingApp p)
   /\ outside_settings (fst (switch cmd p)) = outside_settings p
   /\ md5SumBuffer (fst (switch cmd p)) = md5SumBuffer p
   /\ snd (switch cmd p) = []) /\
  (Cmd cmd = "debug" ->
   Debug (renderingApp (fst (switch cmd p))) = negb (Debug (renderingApp p))
   /\ settings (fst (switch cmd p)) = settings p
   /\ outside_settings (fst (switch cmd p)) = outside_settings p
   /\ md5SumBuffer (fst (switch cmd p)) = md5SumBuffer p
   /\ snd (switch cmd p) = []).
Proof.
  split; [ | split ]; intros H; take_case H; cbn [fst snd].
  - rewrite settings_with_imageSettings.
    destruct (quality_case_frame (Val cmd) (settings p)) as [E | [q E]];
      rewrite E; repeat split.
  - rewrite settings_with_imageSettings.
    destruct (invert (settings p)) eqn:E; repeat split.
  - unfold settings.
    destruct (Debug (renderingApp p)) eqn:E; repeat split.
Qed.

End Dispatcher.

(** ** The "imagesettings" and "userdata" commands *)

(** Integers within bounds convert to floats within the converted bounds;
    checked value by value for a given pair of bounds. *)
Lemma float64_of_int_in_range (lo hi : Z) :
  forallb (fun n => f_in_range lo hi (float64_of_int n))
    (map (fun k => lo + Z.of_nat k) (seq 0 (Z.to_nat (hi - lo + 1)))) = true ->
  forall n, lo <= n <= hi -> f_in_range lo hi (float64_of_int n) = true.
Proof.
  intros Hall n Hn. rewrite forallb_forall in Hall. apply Hall.
  apply in_map_iff. exists (Z.to_nat (n - lo)). split; [ lia | ].
  apply in_seq. lia.
Qed.

Lemma clamped_percent_in_range (v : Z) :
  f_in_range (-100) 100 (float64_of_int (getValueInRange v (-100) 100)) = true.
Proof.
  apply float64_of_int_in_range; [ vm_compute; reflexivity | ].
  apply getValueInRange_bounds; lia.
Qed.

Lemma clamped_blur_in_range (v : Z) :
  f_in_range 0 20 (float64_of_int (getValueInRange v 0 20)) = true.
Proof.
  apply float64_of_int_in_range; [ vm_compute; reflexivity | ].
  apply getValueInRange_bounds; lia.
Qed.

Lemma clamped_pixelation_in_range (v : float64) :
  is_nan v = false ->
  f_in_range 1 10
    (getFloatValueInRange v (float64_of_int 1) (float64_of_int 10)) = true.
Proof.
  intros Hv. unfold f_in_range.
  destruct (getFloatValueInRange_bounds v (float64_of_int 1) (float64_of_int 10))
    as [H1 H2]; [ reflexivity | exact Hv | ].
  now rewrite H1, H2.
Qed.

Section Imagesettings.

Variable ParseFloat : string -> option float64.
Variable json_Marshal : Message -> string + string.

Local Abbreviation switch := (commandLoop_switch ParseFloat json_Marshal).
Local Abbreviation body := (commandLoop_body ParseFloat json_Marshal).

Ltac take_case H :=
  unfold commandLoop_switch; cbv zeta; rewrite H;
  cbn [String.eqb Ascii.eqb Bool.eqb].

(** What the five stores leave in each field. *)
Lemma imagesettings_case_fields (val s0 s1 s2 s3 s4 : string)
    (s : ImageSettings) :
  Split val ":" = [s0; s1; s2; s3; s4] ->
  imagesettings_case ParseFloat val s =
    mkImageSettings
      (match Atoi s0 with
       | Some v => float64_of_int (getValueInRange v (-100) 100)
       | None => brightness s
       end)
      (match Atoi s1 with
       | Some v => float64_of_int (getValueInRange v (-100) 100)
       | None => contrast s
       end)
      (match Atoi s2 with
       | Some v => float64_of_int (getValueInRange v (-100) 100)
       | None => saturation s
       end)
      (match Atoi s3 with
       | Some v => float64_of_int (getValueInRange v 0 20)
       | None => blur s
       end)
      (match ParseFloat s4 with
       | Some v =>
           getFloatValueInRange v (float64_of_int 1) (float64_of_int 10)
       | None => pixelation s
       end)
      (invert s) (quality s) (encoder s) (isNavigating s).
Proof.
  intros HS. unfold imagesettings_case. rewrite HS.
  unfold store_int_field, store_pixelation.
  destruct s as [b c sa bl px inv q enc nav].
  destruct (Atoi s0), (Atoi s1), (Atoi s2), (Atoi s3), (ParseFloat s4);
    reflexivity.
Qed.

(** Any other number of fields leaves the settings alone. *)
Lemma imagesettings_case_other_count (val : string) (s : ImageSettings) :
  length (Split val ":") <> 5%nat -> imagesettings_case ParseFloat val s = s.
Proof.
  unfold imagesettings_case.
  destruct (Split val ":") as [ | a [ | b [ | c [ | d [ | e [ | f l ] ] ] ] ] ];
    cbn [length]; intros Hn; try reflexivity.
  exfalso. apply Hn. reflexivity.
Qed.

(** The fields that are not numeric are never written. *)
Lemma imagesettings_case_frame (val : string) (s : ImageSettings) :
  invert (imagesettings_case ParseFloat val s) = invert s /\
  quality (imagesettings_case ParseFloat val s) = quality s /\
  encoder (imagesettings_case ParseFloat val s) = encoder s /\
  isNavigating (imagesettings_case ParseFloat val s) = isNavigating s.
Proof.
  destruct (Split val ":") as [ | a [ | b [ | c [ | d [ | e [ | f l ] ] ] ] ] ]
    eqn:HS;
    try (rewrite imagesettings_case_other_count;
         [ repeat split | rewrite HS; cbn [length]; lia ]).
  rewrite (imagesettings_case_fields _ _ _ _ _ _ _ HS). repeat split.
Qed.

(** C7 (the code departs from the claim): an "imagesettings" command of
    five colon-separated fields stores each field on its own: the first
    three as integers clamped to [-100, 100], the fourth as an integer
    clamped to [0, 20], the fifth as a float passed through
    [getFloatValueInRange] with the bounds 1.0 and 10.0; a field that fails
    to parse keeps its old value, and a value with another number of fields
    changes nothing.  An integer field that parses is stored within its
    bounds, and so is a pixelation field that parses as a number.  But a
    pixelation field that parses as NaN is stored as NaN, which is not
    within [1.0, 10.0]: the float is not clamped there.  Nothing else is
    written and nothing is called.  The value "150:-5:0:25:0.5" yields 100,
    -5, 0, 20 and 1.0. *)
Theorem C7_imagesettings_fields (cmd : Command) (p : Program) :
  ParseFloat "0.5" = Some float64_half ->
  Cmd cmd = "imagesettings" ->
  (forall s0 s1 s2 s3 s4,
     Split (Val cmd) ":" = [s0; s1; s2; s3; s4] ->
     brightness (settings (fst (switch cmd p))) =
       match Atoi s0 with
       | Some v => float64_of_int (getValueInRange v (-100) 100)
       | None => brightness (settings p)
       end /\
     contrast (settings (fst (switch cmd p))) =
       match Atoi s1 with
       | Some v => float64_of_int (getValueInRange v (-100) 100)
       | None => contrast (settings p)
       end /\
     saturation (settings (fst (switch cmd p))) =
       match Atoi s2 with
       | Some v => float64_of_int (getValueInRange v (-100) 100)
       | None => saturation (settings p)
       end /\
     blur (settings (fst (switch cmd p))) =
       match Atoi s3 with
       | Some v => float64_of_int (getValueInRange v 0 20)
       | None => blur (settings p)
       end /\
     pixelation (settings (fst (switch cmd p))) =
       match ParseFloat s4 with
       | Some v =>
           getFloatValueInRange v (float64_of_int 1) (float64_of_int 10)
       | None => pixelation (settings p)
       end) /\
  (forall s0 s1 s2 s3 s4,
     Split (Val cmd) ":" = [s0; s1; s2; s3; s4] ->
     (Atoi s0 <> None ->
      f_in_range (-100) 100 (brightness (settings (fst (switch cmd p))))
      = true) /\
     (Atoi s1 <> None ->
      f_in_range (-100) 100 (contrast (settings (fst (switch cmd p))))
      = true) /\
     (Atoi s2 <> None ->
      f_in_range (-100) 100 (saturation (settings (fst (switch cmd p))))
      = true) /\
     (Atoi s3 <> None ->
      f_in_range 0 20 (blur (settings (fst (switch cmd p)))) = true) /\
     (forall v, ParseFloat s4 = Some v -> is_nan v = false ->
      f_in_range 1 10 (pixelation (settings (fst (switch cmd p)))) = true) /\
     (forall v, ParseFloat s4 = Some v -> is_nan v = true ->
      pixelation (settings (fst (switch cmd p))) = S754_nan /\
      f_in_range 1 10 (pixelation (settings (fst (switch cmd p))))
      = false)) /\
  (length (Split (Val cmd) ":") <> 5%nat ->
   settings (fst (switch cmd p)) = settings p) /\
  (invert (settings (fst (switch cmd p))) = invert (settings p) /\
   quality (settings (fst (switch cmd p))) = quality (settings p) /\
   encoder (settings (fst (switch cmd p))) = encoder (settings p) /\
   isNavigating (settings (fst (switch cmd p))) = isNavigating (settings p) /\
   Debug (renderingApp (fst (switch cmd p))) = Debug (renderingApp p) /\
   outside_settings (fst (switch cmd p)) = outside_settings p /\
   snd (switch cmd p) = []) /\
  (Val cmd = "150:-5:0:25:0.5" ->
   numeric_fields (settings (fst (switch cmd p))) =
     (float64_of_int 100, float64_of_int (-5), float64_of_int 0,
      float64_of_int 20, float64_of_int 1)).
Proof.
  intros Hhalf H.
  assert (E : settings (fst (switch cmd p))
              = imagesettings_case ParseFloat (Val cmd) (settings p)).
  { take_case H. reflexivity. }
  split; [ | split; [ | split; [ | split ] ] ].
  - intros s0 s1 s2 s3 s4 HS. rewrite E.
    rewrite (imagesettings_case_fields _ _ _ _ _ _ _ HS). repeat split.
  - intros s0 s1 s2 s3 s4 HS. rewrite E.
    rewrite (imagesettings_case_fields _ _ _ _ _ _ _ HS).
    cbn [brightness contrast saturation blur pixelation].
    split; [ | split; [ | split; [ | split; [ | split ] ] ] ].
    + intros Hsome. destruct (Atoi s0); [ | congruence ].
      apply clamped_percent_in_range.
    + intros Hsome. destruct (Atoi s1); [ | congruence ].
      apply clamped_percent_in_range.
    + intros Hsome. destruct (Atoi s2); [ | congruence ].
      apply clamped_percent_in_range.
    + intros Hsome. destruct (Atoi s3); [ | congruence ].
      apply clamped_blur_in_range.
    + intros v Hv Hn. rewrite Hv. now apply clamped_pixelation_in_range.
    + intros v Hv Hn. rewrite Hv. destruct v; try discriminate Hn.
      split; reflexivity.
  - intros Hn. rewrite E. now apply imagesettings_case_other_count.
  - rewrite E.
    destruct (imagesettings_case_frame (Val cmd) (settings p))
      as (H1 & H2 & H3 & H4).
    repeat split; try assumption; take_case H; reflexivity.
  - intros Hv. rewrite E, Hv.
    rewrite (imagesettings_case_fields _ "150" "-5" "0" "25" "0.5");
      [ | reflexivity ].
    rewrite Hhalf. vm_compute. reflexivity.
Qed.

(** C8 (the code departs from the claim): from settings that are in range,
    the command [{Cmd:"imagesettings", Val:"0:0:0:0:NaN"}] stores NaN in the
    pixelation field, for [strconv.ParseFloat] reads "NaN" as NaN and the
    clamp lets NaN through; the settings are then out of range. *)
Theorem C8_pixelation_nan_escapes (p : Program) :
  ParseFloat "NaN" = Some S754_nan ->
  in_range (settings p) = true ->
  pixelation
    (settings (fst (switch (command "imagesettings" "0:0:0:0:NaN") p)))
  = S754_nan /\
  in_range (settings (fst (switch (command "imagesettings" "0:0:0:0:NaN") p)))
  = false.
Proof.
  intros Hnan Hin.
  assert (E : pixelation
                (settings
                   (fst (switch (command "imagesettings" "0:0:0:0:NaN") p)))
              = S754_nan).
  { unfold commandLoop_switch, command. cbn [Cmd Val String.eqb Ascii.eqb
      Bool.eqb fst]. rewrite settings_with_imageSettings.
    rewrite (imagesettings_case_fields _ "0" "0" "0" "0" "NaN");
      [ | reflexivity ].
    cbn [pixelation]. rewrite Hnan. reflexivity. }
  split; [ exact E | ].
  unfold in_range. rewrite E.
  rewrite !andb_false_iff. right. reflexivity.
Qed.

(** C6 (the code departs from the claim): for a "userdata" command whose
    value names a node of the node buffer, [sendMessageToClient] marshals
    the message and logs it, and that is all: every call is a call of the
    logger, and nothing is sent on the channel to the client.  When no node
    has that name, nothing is called at all. *)
Theorem C6_userdata_is_only_logged (cmd : Command) (p : Program) (node : Node) :
  Cmd cmd = "userdata" ->
  nodeBuffer (renderingApp p) !! Val cmd = Some node ->
  fst (switch cmd p) = p /\
  snd (switch cmd p) =
    match json_Marshal (mkMessage "userdata" (UserData node)) with
    | inl msgJSON => [Log_Info ("sending message: " ++ msgJSON)]
    | inr err => [Log_Error err]
    end /\
  (forall msg, ~ In (cData_send msg) (snd (switch cmd p))) /\
  (forall p0, nodeBuffer (renderingApp p0) !! Val cmd = None ->
              switch cmd p0 = (p0, [])).
Proof.
  intros H Hnode. repeat split.
  - take_case H. rewrite Hnode. reflexivity.
  - take_case H. rewrite Hnode. cbn [snd]. unfold sendMessageToClient.
    destruct (json_Marshal _); reflexivity.
  - intros msg. take_case H. rewrite Hnode. cbn [snd].
    unfold sendMessageToClient.
    destruct (json_Marshal _); intros [Hc | []]; discriminate Hc.
  - intros p0 Hnone. take_case H. rewrite Hnone. reflexivity.
Qed.

End Imagesettings.

(** ** Runs of the command loop *)

Lemma set_selectionBuffer_same (p : Program) :
  set_selectionBuffer (selectionBuffer (renderingApp p)) p = p.
Proof. destruct p as [[s sel nodes dbg] md]. reflexivity. Qed.

Lemma set_selectionBuffer_twice (a b : list Node) (p : Program) :
  set_selectionBuffer a (set_selectionBuffer b p) = set_selectionBuffer a p.
Proof. reflexivity. Qed.

Section Run.

Variable ParseFloat : string -> option float64.
Variable json_Marshal : Message -> string + string.
Variable picked :
  list Call -> float32 -> float32 -> bool -> RenderingApp -> list Node.

Local Abbreviation switch := (commandLoop_switch ParseFloat json_Marshal).
Local Abbreviation body := (commandLoop_body ParseFloat json_Marshal).
Local Abbreviation from := (commandLoop_from ParseFloat json_Marshal picked).
Local Abbreviation run := (commandLoop ParseFloat json_Marshal picked).
Local Abbreviation follow := (after_calls picked).

(** The methods followed write the selection and nothing else. *)
Lemma after_calls_selection (done calls : list Call) (p : Program) :
  exists selection, follow done calls p = set_selectionBuffer selection p.
Proof.
  revert done p. induction calls as [ | c calls IH ]; intros done p.
  - exists (selectionBuffer (renderingApp p)).
    symmetry. apply set_selectionBuffer_same.
  - cbn [after_calls].
    destruct (IH (done ++ [c])%list (after_call picked done c p)) as [sel E].
    rewrite E.
    destruct c; cbn [after_call]; rewrite ?set_selectionBuffer_twice;
      eexists; reflexivity.
Qed.

Lemma after_calls_settings (done calls : list Call) (p : Program) :
  settings (follow done calls p) = settings p.
Proof.
  destruct (after_calls_selection done calls p) as [sel E]. now rewrite E.
Qed.

Lemma after_calls_md5SumBuffer (done calls : list Call) (p : Program) :
  md5SumBuffer (follow done calls p) = md5SumBuffer p.
Proof.
  destruct (after_calls_selection done calls p) as [sel E]. now rewrite E.
Qed.

Lemma after_calls_nodeBuffer (done calls : list Call) (p : Program) :
  nodeBuffer (renderingApp (follow done calls p)) = nodeBuffer (renderingApp p).
Proof.
  destruct (after_calls_selection done calls p) as [sel E]. now rewrite E.
Qed.

Lemma after_calls_Debug (done calls : list Call) (p : Program) :
  Debug (renderingApp (follow done calls p)) = Debug (renderingApp p).
Proof.
  destruct (after_calls_selection done calls p) as [sel E]. now rewrite E.
Qed.

Lemma after_calls_app (done c1 c2 : list Call) (p : Program) :
  follow done (c1 ++ c2) p = follow (done ++ c1) c2 (follow done c1 p).
Proof.
  revert done p. induction c1 as [ | c c1 IH ]; intros done p.
  - cbn. now rewrite app_nil_r.
  - cbn [app after_calls]. rewrite IH, <- app_assoc. reflexivity.
Qed.

(** Calls other than those of the two selection methods change nothing. *)
Lemma after_calls_quiet (done calls : list Call) (p : Program) :
  forallb (fun c => negb (is_selection_call c)) calls = true ->
  follow done calls p = p.
Proof.
  revert done p. induction calls as [ | c calls IH ]; intros done p H.
  - reflexivity.
  - cbn [forallb] in H. apply andb_true_iff in H. destruct H as [Hc H].
    cbn [after_calls]. rewrite (IH _ _ H).
    destruct c; try reflexivity; discriminate Hc.
Qed.

(** The calls the body makes before those of the [switch] are calls of the
    logger. *)
Lemma after_calls_body (done : list Call) (cmd : Command)
    (err : option string) (p q : Program) :
  follow done (snd (body (cmd, err) p)) q
  = follow
      (done
       ++ (match err with Some e => [Log_Error e] | None => [] end)
       ++ (if negb (String.eqb (Cmd cmd) "")
           then [Log_Info_received cmd] else []))
      (snd (switch cmd p)) q.
Proof.
  rewrite (proj2 (body_switch ParseFloat json_Marshal cmd err p)).
  rewrite app_assoc, after_calls_app.
  rewrite (after_calls_quiet done); [ reflexivity | ].
  destruct err; destruct (negb (String.eqb (Cmd cmd) "")); reflexivity.
Qed.

(** One more message at the head of a run. *)
Lemma commandLoop_from_cons (done : list Call) (m : Command * option string)
    (rest : list (Command * option string)) (p : Program) :
  from done (m :: rest) p
  = (fst (from (done ++ snd (body m p)) rest
            (follow done (snd (body m p)) (fst (body m p)))),
     (snd (body m p)
      ++ snd (from (done ++ snd (body m p)) rest
                (follow done (snd (body m p)) (fst (body m p)))))%list).
Proof.
  cbn [commandLoop_from]. destruct (body m p) as [p1 c1]. cbn [fst snd].
  destruct (from (done ++ c1)%list rest (follow done c1 p1)); reflexivity.
Qed.

(** A run over two sequences of messages is the run over the first
    followed by the run over the second. *)
Lemma commandLoop_from_app (done : list Call)
    (a b : list (Command * option string)) (p : Program) :
  from done (a ++ b) p
  = (fst (from (done ++ snd (from done a p)) b (fst (from done a p))),
     (snd (from done a p)
      ++ snd (from (done ++ snd (from done a p)) b (fst (from done a p))))%list).
Proof.
  revert done p. induction a as [ | m a IH ]; intros done p.
  - cbn [app commandLoop_from fst snd]. rewrite app_nil_r.
    destruct (from done b p); reflexivity.
  - cbn [app]. rewrite !commandLoop_from_cons, IH. cbn [fst snd].
    rewrite <- !app_assoc. reflexivity.
Qed.

End Run.

(** ** The screenshot: encoder failure and the dedup gate *)

Lemma bytes_eqb_eq (a b : list byte) : bytes_eqb a b = true <-> a = b.
Proof.
  revert b. induction a as [ | x a IH ]; intros [ | y b ]; cbn;
    try (split; [ discriminate | discriminate ]); [ tauto | ].
  rewrite andb_true_iff, IH. split.
  - intros [Hx ->]. apply Byte.byte_dec_bl in Hx. now subst.
  - intros [= -> ->]. split; [ now apply Byte.byte_dec_lb | reflexivity ].
Qed.

Lemma bytes_eqb_neq (a b : list byte) : bytes_eqb a b = false <-> a <> b.
Proof.
  rewrite <- bytes_eqb_eq. destruct (bytes_eqb a b); split; congruence.
Qed.

Lemma transmitted_app (c1 c2 : list Call) :
  transmitted (c1 ++ c2) = (transmitted c1 ++ transmitted c2)%list.
Proof.
  induction c1 as [ | c c1 IH ]; [ reflexivity | ].
  destruct c; cbn; rewrite ?IH; reflexivity.
Qed.

(** A frame whose digest is the remembered one is dropped. *)
Lemma makeScreenShot_same (f : list byte) (p : Program) :
  md5.Sum f = md5SumBuffer p ->
  makeScreenShot (Encoded f) p = Returned p [].
Proof.
  intros E. unfold makeScreenShot. cbv zeta.
  replace (bytes_eqb (md5SumBuffer p) (md5.Sum f)) with true;
    [ reflexivity | ].
  symmetry. now apply bytes_eqb_eq.
Qed.

(** A frame with another digest is sent, and its digest remembered. *)
Lemma makeScreenShot_new (f : list byte) (p : Program) :
  md5.Sum f <> md5SumBuffer p ->
  makeScreenShot (Encoded f) p =
    Returned (set_md5SumBuffer (md5.Sum f) p)
      ((if Debug (renderingApp p)
        then [AddToByteBuffer (Z.of_nat (length f))] else [])
       ++ [cImagestream_send f])%list.
Proof.
  intros E. unfold makeScreenShot. cbv zeta.
  replace (bytes_eqb (md5SumBuffer p) (md5.Sum f)) with false;
    [ reflexivity | ].
  symmetry. apply bytes_eqb_neq. congruence.
Qed.

Lemma transmitted_new (f : list byte) (d : bool) :
  transmitted
    ((if d then [AddToByteBuffer (Z.of_nat (length f))] else [])
     ++ [cImagestream_send f])%list = [f].
Proof. destruct d; reflexivity. Qed.

(** Whatever the gate decides, a tick on encoded bytes returns, sends at
    most that frame, leaves the application alone and leaves the frame's
    digest in [md5SumBuffer]. *)
Lemma makeScreenShot_encoded (f : list byte) (p : Program) :
  exists calls,
    makeScreenShot (Encoded f) p
    = Returned (mkProgram (renderingApp p) (md5.Sum f)) calls /\
    transmitted calls
    = if bytes_eqb (md5SumBuffer p) (md5.Sum f) then [] else [f].
Proof.
  destruct (bytes_eqb (md5SumBuffer p) (md5.Sum f)) eqn:E.
  - apply bytes_eqb_eq in E. exists [].
    rewrite makeScreenShot_same by congruence.
    split; [ | reflexivity ]. destruct p as [a d]; cbn in *. congruence.
  - apply bytes_eqb_neq in E. eexists.
    rewrite makeScreenShot_new by congruence.
    split; [ reflexivity | apply transmitted_new ].
Qed.

(** A run of ticks on encoded frames returns, and [md5SumBuffer] then holds
    the digest of the last frame sent, or its old value if none was. *)
Lemma renderTicks_last_transmitted (fs : list (list byte)) (p : Program) :
  exists p' calls,
    renderTicks (map Encoded fs) p = Returned p' calls /\
    renderingApp p' = renderingApp p /\
    md5SumBuffer p' =
      match last (transmitted calls) with
      | Some t => md5.Sum t
      | None => md5SumBuffer p
      end.
Proof.
  revert p. induction fs as [ | f fs IH ]; intros p.
  - exists p, []. repeat split.
  - destruct (makeScreenShot_encoded f p) as (c1 & E1 & T1).
    destruct (IH (mkProgram (renderingApp p) (md5.Sum f)))
      as (p2 & c2 & E2 & A2 & D2).
    exists p2, (c1 ++ c2)%list.
    cbn [map renderTicks]. unfold onRender. rewrite E1, E2.
    split; [ reflexivity | split; [ exact A2 | ] ].
    rewrite D2, transmitted_app, T1. cbn [md5SumBuffer].
    destruct (bytes_eqb (md5SumBuffer p) (md5.Sum f)) eqn:E.
    + apply bytes_eqb_eq in E. cbn [app].
      destruct (last (transmitted c2)); congruence.
    + cbn [app]. destruct (transmitted c2) as [ | t ts ] eqn:Et;
        [ reflexivity | ].
      change (last (f :: t :: ts)) with (last (t :: ts)).
      destruct (last (t :: ts)) eqn:El; [ reflexivity | ].
      apply last_None in El. discriminate El.
Qed.

(** C2 (amended): a frame whose digest equals [md5SumBuffer] is dropped
    with no transmission and no state change; a frame whose digest differs
    is pushed to the image stream and [md5SumBuffer] becomes its digest.
    Two consecutive identical encodings are sent at most once: once when
    the digest differs from [md5SumBuffer] before the first, not at all
    otherwise.  Two encodings are both sent, in order, when the digest of
    the first differs from [md5SumBuffer] and the digest of the second from
    that of the first.  After any run of ticks [md5SumBuffer] is the digest
    of the last frame sent, or what it was before the run (the zero value
    for a fresh program) if none was sent. *)
Theorem C2_dedup_gate (p : Program) (f g : list byte) :
  (md5.Sum f = md5SumBuffer p ->
   makeScreenShot (Encoded f) p = Returned p []) /\
  (md5.Sum f <> md5SumBuffer p ->
   exists calls,
     makeScreenShot (Encoded f) p
     = Returned (set_md5SumBuffer (md5.Sum f) p) calls /\
     transmitted calls = [f]) /\
  transmitted (Outcome_calls (renderTicks [Encoded f; Encoded f] p))
  = (if bytes_eqb (md5SumBuffer p) (md5.Sum f) then [] else [f]) /\
  (md5.Sum f <> md5SumBuffer p -> md5.Sum g <> md5.Sum f ->
   transmitted (Outcome_calls (renderTicks [Encoded f; Encoded g] p))
   = [f; g]) /\
  (forall fs, exists p' calls,
     renderTicks (map Encoded fs) p = Returned p' calls /\
     renderingApp p' = renderingApp p /\
     md5SumBuffer p' =
       match last (transmitted calls) with
       | Some t => md5.Sum t
       | None => md5SumBuffer p
       end).
Proof.
  split; [ apply makeScreenShot_same | ].
  split.
  { intros E. eexists. split; [ now apply makeScreenShot_new | ].
    apply transmitted_new. }
  split.
  { destruct (makeScreenShot_encoded f p) as (c1 & E1 & T1).
    cbn [renderTicks]. unfold onRender. rewrite E1.
    rewrite makeScreenShot_same by reflexivity.
    cbn [Outcome_calls]. rewrite !transmitted_app, T1. cbn [transmitted].
    now rewrite !app_nil_r. }
  split.
  { intros Ef Eg.
    cbn [renderTicks]. unfold onRender.
    rewrite (makeScreenShot_new f p Ef).
    rewrite makeScreenShot_new by (cbn [set_md5SumBuffer md5SumBuffer]; exact Eg).
    cbn [Outcome_calls].
    rewrite transmitted_app, transmitted_new, transmitted_app, transmitted_new.
    reflexivity. }
  intros fs. apply renderTicks_last_transmitted.
Qed.

(** C5 (the code departs from the claim): when the encoder returns an
    error, [makeScreenShot] panics with it; a run of ticks that meets an
    encoding failure ends in that panic and never reaches the next tick. *)
Theorem C5_encode_error_panics (err : string) (p : Program) :
  makeScreenShot (EncodeError err) p = Panicked [] err /\
  (forall rest, renderTicks (EncodeError err :: rest) p = Panicked [] err) /\
  (forall fs rest, exists calls,
     renderTicks (map Encoded fs ++ EncodeError err :: rest) p
     = Panicked calls err).
Proof.
  split; [ reflexivity | ]. split; [ reflexivity | ].
  intros fs rest. revert p. induction fs as [ | f fs IH ]; intros p.
  - exists []. reflexivity.
  - destruct (makeScreenShot_encoded f p) as (c1 & E1 & _).
    destruct (IH (mkProgram (renderingApp p) (md5.Sum f))) as (c2 & E2).
    exists (c1 ++ c2)%list.
    change (renderTicks (map Encoded (f :: fs) ++ EncodeError err :: rest) p)
      with (match onRender (Encoded f) p with
            | Panicked calls e => Panicked calls e
            | Returned p1 calls1 =>
                match renderTicks (map Encoded fs ++ EncodeError err :: rest) p1
                with
                | Panicked calls2 e => Panicked (calls1 ++ calls2)%list e
                | Returned p2 calls2 => Returned p2 (calls1 ++ calls2)%list
                end
            end).
    unfold onRender. rewrite E1, E2. reflexivity.
Qed.

(** ** Further properties of the dispatcher *)

Section MoreDispatcher.

Variable ParseFloat : string -> option float64.
Variable json_Marshal : Message -> string + string.

Local Abbreviation switch := (commandLoop_switch ParseFloat json_Marshal).

(** A command of a kind the [switch] has no case for is logged as unknown;
    the state is unchanged and no other collaborator is called. *)
Theorem unknown_command_is_logged (cmd : Command) (p : Program) :
  ~ In (Cmd cmd) known_commands ->
  switch cmd p = (p, [Log_Info ("Unknown Command: " ++ Cmd cmd)]).
Proof.
  intros H. unfold commandLoop_switch. cbv zeta.
  repeat match goal with
         | |- context [String.eqb (Cmd cmd) ?l] =>
             destruct (String.eqb_spec (Cmd cmd) l) as [E | _];
             [ exfalso; apply H; rewrite E; unfold known_commands;
               cbn [In]; tauto | ]
         end.
  reflexivity.
Qed.

(** A "fov" command whose value is an integer sets the field of view to
    that integer clamped to [5, 120]; any other value does nothing. *)
Theorem fov_is_clamped (cmd : Command) (p : Program) :
  Cmd cmd = "fov" ->
  switch cmd p =
    (p, match Atoi (Val cmd) with
        | Some fov =>
            [CameraPersp_SetFov (float32_of_int (getValueInRange fov 5 120))]
        | None => []
        end) /\
  (forall fov, Atoi (Val cmd) = Some fov ->
               5 <= getValueInRange fov 5 120 <= 120).
Proof.
  intros H. split.
  - unfold commandLoop_switch. cbv zeta. rewrite H.
    cbn [String.eqb Ascii.eqb Bool.eqb].
    destruct (Atoi (Val cmd)); reflexivity.
  - intros fov _. apply getValueInRange_bounds. lia.
Qed.

End MoreDispatcher.

(** ** The range invariant of the settings *)

Section RangeInvariant.

Variable ParseFloat : string -> option float64.
Variable json_Marshal : Message -> string + string.
Variable picked :
  list Call -> float32 -> float32 -> bool -> RenderingApp -> list Node.

Local Abbreviation switch := (commandLoop_switch ParseFloat json_Marshal).
Local Abbreviation body := (commandLoop_body ParseFloat json_Marshal).
Local Abbreviation run := (commandLoop ParseFloat json_Marshal picked).

(** The writes the [switch] can make to the settings. *)
Lemma switch_settings (cmd : Command) (p : Program) :
  settings (fst (switch cmd p)) = settings p \/
  (exists b, settings (fst (switch cmd p)) = set_isNavigating b (settings p)) \/
  (exists b, settings (fst (switch cmd p)) = set_invert b (settings p)) \/
  settings (fst (switch cmd p)) = quality_case (Val cmd) (settings p) \/
  (Cmd cmd = "imagesettings" /\
   settings (fst (switch cmd p))
   = imagesettings_case ParseFloat (Val cmd) (settings p)).
Proof.
  unfold commandLoop_switch. cbv zeta.
  destruct (String.eqb (Cmd cmd) ""); [ left; reflexivity | ].
  destruct (String.eqb (Cmd cmd) "mousedown").
  { destruct (Moved cmd); [ right; left; eexists | left ]; reflexivity. }
  destruct (String.eqb (Cmd cmd) "zoom"); [ left; reflexivity | ].
  destruct (String.eqb (Cmd cmd) "mouseup").
  { right; left; eexists; reflexivity. }
  destruct (String.eqb (Cmd cmd) "hide"); [ left; reflexivity | ].
  destruct (String.eqb (Cmd cmd) "unhide"); [ left; reflexivity | ].
  destruct (String.eqb (Cmd cmd) "userdata").
  { destruct (nodeBuffer (renderingApp p) !! Val cmd); left; reflexivity. }
  destruct (String.eqb (Cmd cmd) "keydown"); [ left; reflexivity | ].
  destruct (String.eqb (Cmd cmd) "keyup"); [ left; reflexivity | ].
  destruct (String.eqb (Cmd cmd) "view"); [ left; reflexivity | ].
  destruct (String.eqb (Cmd cmd) "zoomextent"); [ left; reflexivity | ].
  destruct (String.eqb (Cmd cmd) "focus"); [ left; reflexivity | ].
  destruct (String.eqb (Cmd cmd) "invert").
  { right; right; left. cbn [fst]. rewrite settings_with_imageSettings.
    destruct (invert (settings p)); eexists; reflexivity. }
  destruct (String.eqb_spec (Cmd cmd) "imagesettings") as [E | _].
  { right; right; right; right. split; [ exact E | reflexivity ]. }
  destruct (String.eqb (Cmd cmd) "quality").
  { right; right; right; left. reflexivity. }
  destruct (String.eqb (Cmd cmd) "fov").
  { destruct (Atoi (Val cmd)); left; reflexivity. }
  destruct (String.eqb (Cmd cmd) "debug").
  { destruct (Debug (renderingApp p)); left; reflexivity. }
  destruct (String.eqb (Cmd cmd) "close"); left; reflexivity.
Qed.

(** The "imagesettings" case keeps the settings in range when its
    pixelation field does not read as NaN. *)
Lemma imagesettings_case_in_range (cmd : Command) (s : ImageSettings) :
  Cmd cmd = "imagesettings" ->
  carries_nan ParseFloat cmd = false ->
  in_range s = true ->
  in_range (imagesettings_case ParseFloat (Val cmd) s) = true.
Proof.
  intros Hc Hn Hin. unfold carries_nan in Hn. rewrite Hc in Hn.
  cbn [String.eqb Ascii.eqb Bool.eqb andb] in Hn.
  destruct (Split (Val cmd) ":")
    as [ | s0 [ | s1 [ | s2 [ | s3 [ | s4 [ | s5 l ] ] ] ] ] ] eqn:HS;
    try (rewrite imagesettings_case_other_count;
         [ exact Hin | rewrite HS; cbn [length]; lia ]).
  rewrite (imagesettings_case_fields _ _ _ _ _ _ _ _ HS).
  unfold in_range in *. cbn [brightness contrast saturation blur pixelation].
  rewrite !andb_true_iff in Hin. destruct Hin as ((((Hb & Hct) & Hs) & Hbl) & Hp).
  rewrite !andb_true_iff. repeat split.
  - destruct (Atoi s0); [ apply clamped_percent_in_range | exact Hb ].
  - destruct (Atoi s1); [ apply clamped_percent_in_range | exact Hct ].
  - destruct (Atoi s2); [ apply clamped_percent_in_range | exact Hs ].
  - destruct (Atoi s3); [ apply clamped_blur_in_range | exact Hbl ].
  - destruct (ParseFloat s4);
      [ now apply clamped_pixelation_in_range | exact Hp ].
Qed.

(** One dispatched command keeps the settings in range unless it carries
    NaN. *)
Lemma switch_in_range (cmd : Command) (p : Program) :
  carries_nan ParseFloat cmd = false ->
  in_range (settings p) = true ->
  in_range (settings (fst (switch cmd p))) = true.
Proof.
  intros Hn Hin.
  destruct (switch_settings cmd p)
    as [E | [[b E] | [[b E] | [E | [Hc E]]]]]; rewrite E.
  - exact Hin.
  - exact Hin.
  - exact Hin.
  - destruct (quality_case_frame (Val cmd) (settings p)) as [Q | [q Q]];
      rewrite Q; exact Hin.
  - now apply imagesettings_case_in_range.
Qed.

(** Over every run of the command loop in which no "imagesettings" command
    carries NaN, settings that start in range stay in range; the run of
    every prefix being a run, this holds after every command. *)
Theorem commandLoop_keeps_in_range
    (inbound : list (Command * option string)) (p : Program) :
  forallb (fun d => negb (carries_nan ParseFloat (fst d))) inbound = true ->
  in_range (settings p) = true ->
  in_range (settings (fst (run inbound p))) = true.
Proof.
  unfold commandLoop. generalize (@nil Call) as done. revert p.
  induction inbound as [ | [cmd err] rest IH ]; intros p done Hall Hin.
  - exact Hin.
  - cbn [forallb fst] in Hall. apply andb_true_iff in Hall.
    destruct Hall as [Hn Hrest]. apply negb_true_iff in Hn.
    rewrite commandLoop_from_cons. cbn [fst]. apply IH; [ exact Hrest | ].
    rewrite after_calls_settings.
    rewrite (proj1 (body_switch ParseFloat json_Marshal cmd err p)).
    now apply switch_in_range.
Qed.

End RangeInvariant.

(** ** The frames a run of render ticks sends *)

Lemma renderTicks_cons_encoded (f : list byte) (ticks : list EncodeResult)
    (p : Program) :
  exists c1,
    makeScreenShot (Encoded f) p
    = Returned (mkProgram (renderingApp p) (md5.Sum f)) c1 /\
    transmitted c1
    = (if bytes_eqb (md5SumBuffer p) (md5.Sum f) then [] else [f]) /\
    byte_buffer_sizes c1
    = (if bytes_eqb (md5SumBuffer p) (md5.Sum f) then []
       else if Debug (renderingApp p) then [Z.of_nat (length f)] else []) /\
    renderTicks (Encoded f :: ticks) p
    = match renderTicks ticks (mkProgram (renderingApp p) (md5.Sum f)) with
      | Panicked c2 err => Panicked (c1 ++ c2)%list err
      | Returned p2 c2 => Returned p2 (c1 ++ c2)%list
      end.
Proof.
  destruct (bytes_eqb (md5SumBuffer p) (md5.Sum f)) eqn:E.
  - exists []. apply bytes_eqb_eq in E.
    assert (Hp : p = mkProgram (renderingApp p) (md5.Sum f))
      by (destruct p as [a d]; cbn in *; congruence).
    assert (H1 : makeScreenShot (Encoded f) p
                 = Returned (mkProgram (renderingApp p) (md5.Sum f)) []).
    { rewrite <- Hp. apply makeScreenShot_same. congruence. }
    repeat split; try exact H1.
    cbn [renderTicks]. unfold onRender. rewrite H1. reflexivity.
  - apply bytes_eqb_neq in E.
    assert (H1 := makeScreenShot_new f p (fun H => E (eq_sym H))).
    eexists. split; [ exact H1 | ].
    split; [ apply transmitted_new | ].
    split; [ destruct (Debug (renderingApp p)); reflexivity | ].
    cbn [renderTicks]. unfold onRender. rewrite H1. reflexivity.
Qed.

Lemma byte_buffer_sizes_app (c1 c2 : list Call) :
  byte_buffer_sizes (c1 ++ c2)
  = (byte_buffer_sizes c1 ++ byte_buffer_sizes c2)%list.
Proof.
  induction c1 as [ | c c1 IH ]; [ reflexivity | ].
  destruct c; cbn; rewrite ?IH; reflexivity.
Qed.

(** A run of ticks whose frames all encode returns, having sent the
    frames the gate lets through. *)
Lemma renderTicks_encoded_returns (fs : list (list byte)) (p : Program) :
  exists p' calls,
    renderTicks (map Encoded fs) p = Returned p' calls /\
    transmitted calls = changed_frames (md5SumBuffer p) fs.
Proof.
  revert p. induction fs as [ | f fs IH ]; intros p.
  - exists p, []. split; reflexivity.
  - destruct (renderTicks_cons_encoded f (map Encoded fs) p)
      as (c1 & _ & T1 & _ & R).
    destruct (IH (mkProgram (renderingApp p) (md5.Sum f)))
      as (p2 & c2 & E2 & T2).
    exists p2, (c1 ++ c2)%list. cbn [map]. rewrite R, E2.
    split; [ reflexivity | ].
    rewrite transmitted_app, T1, T2. cbn [md5SumBuffer changed_frames].
    destruct (bytes_eqb (md5SumBuffer p) (md5.Sum f)); reflexivity.
Qed.

(** Over a run of ticks whose frames all encode, the frames sent are, in
    order, exactly those whose digest differs from the digest of the frame
    encoded on the tick before (from [md5SumBuffer] for the first tick);
    so they are a subsequence of the encoded frames, and the application
    object is untouched. *)
Theorem renderTicks_sends_changed_frames (fs : list (list byte)) (p : Program) :
  exists p' calls,
    renderTicks (map Encoded fs) p = Returned p' calls /\
    transmitted calls = changed_frames (md5SumBuffer p) fs /\
    sublist (transmitted calls) fs /\
    renderingApp p' = renderingApp p.
Proof.
  revert p. induction fs as [ | f fs IH ]; intros p.
  - exists p, []. repeat split. constructor.
  - destruct (renderTicks_cons_encoded f (map Encoded fs) p)
      as (c1 & _ & T1 & _ & R).
    destruct (IH (mkProgram (renderingApp p) (md5.Sum f)))
      as (p2 & c2 & E2 & T2 & S2 & A2).
    exists p2, (c1 ++ c2)%list. cbn [map]. rewrite R, E2.
    split; [ reflexivity | ].
    rewrite T2 in S2. cbn [md5SumBuffer] in S2.
    rewrite transmitted_app, T1, T2. cbn [md5SumBuffer changed_frames].
    destruct (bytes_eqb (md5SumBuffer p) (md5.Sum f)); cbn [app].
    + repeat split; [ | exact A2 ]. now apply sublist_cons.
    + repeat split; [ | exact A2 ]. now apply sublist_skip.
Qed.

Lemma changed_frames_chain (last : list byte) (fs : list (list byte)) :
  digest_chain last (changed_frames last fs).
Proof.
  revert last. induction fs as [ | f fs IH ]; intros last; [ exact I | ].
  cbn [changed_frames].
  destruct (bytes_eqb last (md5.Sum f)) eqn:E.
  - apply bytes_eqb_eq in E. rewrite E. apply IH.
  - apply bytes_eqb_neq in E. split; [ congruence | apply IH ].
Qed.

(** No two frames sent one after the other have the same digest, and the
    first frame sent has a digest other than the one [md5SumBuffer] held
    before the run. *)
Theorem renderTicks_never_repeats_a_digest
    (fs : list (list byte)) (p : Program) :
  digest_chain (md5SumBuffer p)
    (transmitted (Outcome_calls (renderTicks (map Encoded fs) p))).
Proof.
  destruct (renderTicks_encoded_returns fs p) as (p' & calls & E & T).
  rewrite E. cbn [Outcome_calls]. rewrite T. apply changed_frames_chain.
Qed.

(** With the debug flag set, [AddToByteBuffer] receives the length of every
    frame sent, once each and in the order sent; with the flag clear it is
    never called. *)
Theorem renderTicks_byte_buffer (fs : list (list byte)) (p : Program) :
  byte_buffer_sizes (Outcome_calls (renderTicks (map Encoded fs) p))
  = if Debug (renderingApp p)
    then map (fun f => Z.of_nat (length f))
           (transmitted (Outcome_calls (renderTicks (map Encoded fs) p)))
    else [].
Proof.
  revert p. induction fs as [ | f fs IH ]; intros p.
  - cbn. destruct (Debug (renderingApp p)); reflexivity.
  - destruct (renderTicks_cons_encoded f (map Encoded fs) p)
      as (c1 & _ & T1 & B1 & R).
    specialize (IH (mkProgram (renderingApp p) (md5.Sum f))).
    cbn [map]. rewrite R.
    destruct (renderTicks_encoded_returns fs
                (mkProgram (renderingApp p) (md5.Sum f)))
      as (p2 & c2 & E2 & _).
    rewrite E2 in *. cbn [Outcome_calls renderingApp] in *.
    rewrite byte_buffer_sizes_app, transmitted_app, B1, T1, IH.
    destruct (bytes_eqb (md5SumBuffer p) (md5.Sum f));
      destruct (Debug (renderingApp p)); reflexivity.
Qed.

(** When the encoder fails on a tick, the run panics with that error having
    made exactly the calls of the ticks before it: what was sent stays
    sent, and no later tick is reached. *)
Theorem renderTicks_panic_keeps_earlier_calls
    (fs : list (list byte)) (err : string) (rest : list EncodeResult)
    (p : Program) :
  renderTicks (map Encoded fs ++ EncodeError err :: rest) p
  = Panicked (Outcome_calls (renderTicks (map Encoded fs) p)) err.
Proof.
  revert p. induction fs as [ | f fs IH ]; intros p; [ reflexivity | ].
  destruct (renderTicks_cons_encoded f
              (map Encoded fs ++ EncodeError err :: rest) p)
    as (c1 & H1 & _ & _ & R).
  destruct (renderTicks_cons_encoded f (map Encoded fs) p)
    as (c1' & H1' & _ & _ & R').
  assert (c1' = c1) by congruence. subst c1'.
  cbn [map app]. rewrite R, R', IH.
  destruct (renderTicks_encoded_returns fs
              (mkProgram (renderingApp p) (md5.Sum f)))
    as (p2 & c2 & E2 & _).
  rewrite E2. reflexivity.
Qed.

(** ** What the command loop keeps and what it never does *)

Section Loop.

Variable ParseFloat : string -> option float64.
Variable json_Marshal : Message -> string + string.
Variable picked :
  list Call -> float32 -> float32 -> bool -> RenderingApp -> list Node.

Local Abbreviation switch := (commandLoop_switch ParseFloat json_Marshal).
Local Abbreviation body := (commandLoop_body ParseFloat json_Marshal).
Local Abbreviation from := (commandLoop_from ParseFloat json_Marshal picked).
Local Abbreviation run := (commandLoop ParseFloat json_Marshal picked).
Local Abbreviation follow := (after_calls picked).

(** Goes through the cases of the [switch] in order; in each case the
    equation on [cmd.Cmd] is used to rewrite, then [tac] runs. *)
Ltac on_kind cmd l tac :=
  destruct (String.eqb_spec (Cmd cmd) l) as [?Ekind | ?Nkind];
  [ try rewrite Ekind in *; tac | ].

Ltac by_kind cmd tac :=
  unfold commandLoop_switch; cbv zeta;
  on_kind cmd "" tac; on_kind cmd "mousedown" tac; on_kind cmd "zoom" tac;
  on_kind cmd "mouseup" tac; on_kind cmd "hide" tac; on_kind cmd "unhide" tac;
  on_kind cmd "userdata" tac; on_kind cmd "keydown" tac;
  on_kind cmd "keyup" tac; on_kind cmd "view" tac;
  on_kind cmd "zoomextent" tac; on_kind cmd "focus" tac;
  on_kind cmd "invert" tac; on_kind cmd "imagesettings" tac;
  on_kind cmd "quality" tac; on_kind cmd "fov" tac; on_kind cmd "debug" tac;
  on_kind cmd "close" tac; [ tac ].

(** The [switch] leaves the buffers and [md5SumBuffer] alone. *)
Lemma switch_outside_settings (cmd : Command) (p : Program) :
  outside_settings (fst (switch cmd p)) = outside_settings p.
Proof.
  by_kind cmd
    ltac:(try reflexivity;
          repeat match goal with
                 | |- context [if ?b then _ else _] => destruct b
                 | |- context [match ?o with Some _ => _ | None => _ end] =>
                     destruct o
                 end; reflexivity).
Qed.

(** The [switch] never writes the encoder format. *)
Lemma switch_encoder (cmd : Command) (p : Program) :
  encoder (settings (fst (switch cmd p))) = encoder (settings p).
Proof.
  destruct (switch_settings ParseFloat json_Marshal cmd p)
    as [E | [[b E] | [[b E] | [E | [_ E]]]]]; rewrite E; try reflexivity.
  - destruct (quality_case_frame (Val cmd) (settings p)) as [Q | [q Q]];
      rewrite Q; reflexivity.
  - apply imagesettings_case_frame.
Qed.

(** What a run leaves alone, whatever was called before it. *)
Lemma commandLoop_from_frame (done : list Call)
    (inbound : list (Command * option string)) (p : Program) :
  nodeBuffer (renderingApp (fst (from done inbound p)))
  = nodeBuffer (renderingApp p) /\
  md5SumBuffer (fst (from done inbound p)) = md5SumBuffer p /\
  encoder (settings (fst (from done inbound p))) = encoder (settings p).
Proof.
  revert done p. induction inbound as [ | [cmd err] rest IH ]; intros done p.
  - repeat split.
  - rewrite commandLoop_from_cons. cbn [fst].
    destruct (IH (done ++ snd (body (cmd, err) p))%list
                (follow done (snd (body (cmd, err) p))
                   (fst (body (cmd, err) p)))) as (H1 & H2 & H3).
    rewrite H1, H2, H3.
    rewrite after_calls_nodeBuffer, after_calls_md5SumBuffer,
      after_calls_settings.
    rewrite (proj1 (body_switch ParseFloat json_Marshal cmd err p)).
    pose proof (switch_outside_settings cmd p) as Ho.
    unfold outside_settings in Ho. injection Ho as _ Hn Hd.
    repeat split; [ exact Hn | exact Hd | apply switch_encoder ].
Qed.

Lemma forallb_SetVisible_row {A : Type} (node : A -> Node) (state : bool)
    (l : list A) :
  forallb (fun c => negb (is_selection_call c))
    (map (fun x => Node_SetVisible (node x) state) l) = true.
Proof. induction l as [ | x l IH ]; [ reflexivity | exact IH ]. Qed.

(** A command that is neither a "hide" nor a click calls neither of the two
    selection methods. *)
Lemma switch_quiet (cmd : Command) (p : Program) :
  is_hide cmd = false -> is_click cmd = false ->
  forallb (fun c => negb (is_selection_call c)) (snd (switch cmd p)) = true.
Proof.
  unfold is_hide, is_click.
  by_kind cmd
    ltac:(cbn [String.eqb Ascii.eqb Bool.eqb andb];
          intros Hh Hc; try discriminate Hh;
          repeat match goal with
                 | |- context [match ?o with Some _ => _ | None => _ end] =>
                     destruct o
                 end;
          cbn [snd]; unfold sendMessageToClient;
          try match goal with
              | |- context [json_Marshal ?m] => destruct (json_Marshal m)
              end;
          rewrite ?Hc, ?(forallb_SetVisible_row snd);
          reflexivity).
Qed.

(** After such a command the program is the one its case leaves. *)
Lemma iteration_quiet (done : list Call) (cmd : Command)
    (err : option string) (p : Program) :
  is_hide cmd = false -> is_click cmd = false ->
  follow done (snd (body (cmd, err) p)) (fst (body (cmd, err) p))
  = fst (switch cmd p).
Proof.
  intros Hh Hc. rewrite after_calls_body.
  rewrite after_calls_quiet by now apply switch_quiet.
  apply (proj1 (body_switch ParseFloat json_Marshal cmd err p)).
Qed.

(** After a "hide" command the selection is empty. *)
Lemma iteration_hide (done : list Call) (cmd : Command)
    (err : option string) (p : Program) :
  is_hide cmd = true ->
  selectionBuffer
    (renderingApp
       (follow done (snd (body (cmd, err) p)) (fst (body (cmd, err) p))))
  = [].
Proof.
  unfold is_hide. intros Hh. apply String.eqb_eq in Hh.
  rewrite after_calls_body.
  assert (E : snd (switch cmd p)
              = (map (fun inode => Node_SetVisible inode false)
                   (selectionBuffer (renderingApp p)) ++ [resetSelection])%list).
  { unfold commandLoop_switch. cbv zeta. rewrite Hh. reflexivity. }
  rewrite E, after_calls_app. reflexivity.
Qed.

Lemma switch_selectionBuffer (cmd : Command) (p : Program) :
  selectionBuffer (renderingApp (fst (switch cmd p)))
  = selectionBuffer (renderingApp p).
Proof.
  pose proof (switch_outside_settings cmd p) as Ho.
  unfold outside_settings in Ho. now injection Ho as Hs _ _.
Qed.

(** Without a "hide" and without a click the selection stays. *)
Lemma commandLoop_from_selection_stays (done : list Call)
    (inbound : list (Command * option string)) (p : Program) :
  forallb (fun c => negb (is_hide c || is_click c)) (commands inbound) = true ->
  selectionBuffer (renderingApp (fst (from done inbound p)))
  = selectionBuffer (renderingApp p).
Proof.
  revert done p.
  induction inbound as [ | [cmd err] rest IH ]; intros done p Hall;
    [ reflexivity | ].
  cbn [commands map forallb fst] in Hall. apply andb_true_iff in Hall.
  destruct Hall as [Hc Hrest]. apply negb_true_iff, orb_false_iff in Hc.
  destruct Hc as [Hh Hc].
  rewrite commandLoop_from_cons. cbn [fst]. rewrite (IH _ _ Hrest).
  rewrite (iteration_quiet done cmd err p Hh Hc).
  apply switch_selectionBuffer.
Qed.

(** Without a click an empty selection stays empty. *)
Lemma commandLoop_from_selection_empty (done : list Call)
    (inbound : list (Command * option string)) (p : Program) :
  forallb (fun c => negb (is_click c)) (commands inbound) = true ->
  selectionBuffer (renderingApp p) = [] ->
  selectionBuffer (renderingApp (fst (from done inbound p))) = [].
Proof.
  revert done p.
  induction inbound as [ | [cmd err] rest IH ]; intros done p Hall Hp;
    [ exact Hp | ].
  cbn [commands map forallb fst] in Hall. apply andb_true_iff in Hall.
  destruct Hall as [Hc Hrest]. apply negb_true_iff in Hc.
  rewrite commandLoop_from_cons. cbn [fst]. apply (IH _ _ Hrest).
  destruct (is_hide cmd) eqn:Hh.
  - now apply iteration_hide.
  - rewrite (iteration_quiet done cmd err p Hh Hc).
    now rewrite switch_selectionBuffer.
Qed.

(** Over every run of the command loop, and whatever the picks give, the
    node buffer, [md5SumBuffer] and the encoder format are what they were.
    The selection is what it was when the run holds neither a "hide" nor a
    click.  After a "hide" the selection is empty as long as no click
    follows, whatever other commands come in between, so that a further
    "hide" hides no node: its only call is [resetSelection]. *)
Theorem commandLoop_buffers_and_selection
    (inbound before after : list (Command * option string))
    (cmd : Command) (err : option string) (p : Program) :
  nodeBuffer (renderingApp (fst (run inbound p)))
  = nodeBuffer (renderingApp p) /\
  md5SumBuffer (fst (run inbound p)) = md5SumBuffer p /\
  encoder (settings (fst (run inbound p))) = encoder (settings p) /\
  (forallb (fun c => negb (is_hide c || is_click c)) (commands inbound)
   = true ->
   selectionBuffer (renderingApp (fst (run inbound p)))
   = selectionBuffer (renderingApp p)) /\
  (Cmd cmd = "hide" ->
   forallb (fun c => negb (is_click c)) (commands after) = true ->
   selectionBuffer
     (renderingApp (fst (run (before ++ (cmd, err) :: after) p))) = [] /\
   snd (switch (command "hide" "")
          (fst (run (before ++ (cmd, err) :: after) p)))
   = [resetSelection]).
Proof.
  unfold commandLoop.
  destruct (commandLoop_from_frame [] inbound p) as (H1 & H2 & H3).
  split; [ exact H1 | split; [ exact H2 | split; [ exact H3 | split ] ] ].
  - apply commandLoop_from_selection_stays.
  - intros Hh Hall.
    assert (E : selectionBuffer
                  (renderingApp (fst (from [] (before ++ (cmd, err) :: after) p)))
                = []).
    { rewrite commandLoop_from_app. cbn [fst].
      rewrite commandLoop_from_cons. cbn [fst].
      apply (commandLoop_from_selection_empty _ _ _ Hall).
      apply iteration_hide. unfold is_hide. now rewrite Hh. }
    split; [ exact E | ].
    unfold commandLoop_switch, command. cbn [Cmd String.eqb Ascii.eqb Bool.eqb snd].
    rewrite E. reflexivity.
Qed.

Lemma switch_no_capture_call (cmd : Command) (p : Program) (c : Call) :
  In c (snd (switch cmd p)) -> is_capture_call c = false.
Proof.
  by_kind cmd
    ltac:(cbn [snd];
          repeat match goal with
                 | |- context [match ?o with Some _ => _ | None => _ end] =>
                     destruct o
                 end;
          cbn [snd]; unfold sendMessageToClient;
          try match goal with
              | |- context [json_Marshal ?m] => destruct (json_Marshal m)
              end;
          intros Hc;
          repeat match goal with
                 | H : In _ (_ ++ _) |- _ =>
                     apply in_app_iff in H; destruct H as [H | H]
                 | H : In _ (map _ _) |- _ =>
                     apply in_map_iff in H; destruct H as (? & <- & _)
                 | H : In _ (_ :: _) |- _ => destruct H as [<- | H]
                 | H : In _ [] |- _ => destruct H
                 | H : In _ (if ?b then _ else _) |- _ => destruct b
                 end;
          reflexivity).
Qed.

(** No run of the command loop sends on a channel or appends to the
    byte-size history: every call it makes goes to the logger, the engine or
    a method of the application.  In particular it transmits no frame. *)
Theorem commandLoop_makes_no_capture_call
    (inbound : list (Command * option string)) (p : Program) :
  (forall c, In c (snd (run inbound p)) -> is_capture_call c = false) /\
  transmitted (snd (run inbound p)) = [].
Proof.
  unfold commandLoop.
  assert (H : forall c, In c (snd (from [] inbound p)) ->
                        is_capture_call c = false).
  { generalize (@nil Call) as done. revert p.
    induction inbound as [ | [cmd err] rest IH ]; intros p done c Hc.
    - destruct Hc.
    - rewrite commandLoop_from_cons in Hc. cbn [snd] in Hc.
      apply in_app_iff in Hc. destruct Hc as [Hc | Hc];
        [ | now apply IH in Hc ].
      rewrite (proj2 (body_switch ParseFloat json_Marshal cmd err p)) in Hc.
      apply in_app_iff in Hc. destruct Hc as [Hc | Hc].
      { destruct err; [ destruct Hc as [<- | []]; reflexivity | destruct Hc ]. }
      apply in_app_iff in Hc. destruct Hc as [Hc | Hc].
      { destruct (negb (String.eqb (Cmd cmd) ""));
          [ destruct Hc as [<- | []]; reflexivity | destruct Hc ]. }
      now apply (switch_no_capture_call cmd p). }
  split; [ exact H | ].
  induction (snd (from [] inbound p)) as [ | c l IH ]; [ reflexivity | ].
  assert (Hc : is_capture_call c = false) by (apply H; now left).
  destruct c; try discriminate Hc; cbn; apply IH; intros; apply H; now right.
Qed.

(** Commands between two ticks do not make the gate send again: after a
    tick on a frame, and any messages handled since, a tick on the same
    bytes sends nothing and changes nothing. *)
Theorem commands_do_not_reopen_the_gate
    (f : list byte) (inbound : list (Command * option string))
    (p p1 : Program) (calls1 : list Call) :
  makeScreenShot (Encoded f) p = Returned p1 calls1 ->
  makeScreenShot (Encoded f) (fst (run inbound p1))
  = Returned (fst (run inbound p1)) [].
Proof.
  intros H1. apply makeScreenShot_same. unfold commandLoop.
  rewrite (proj1 (proj2 (commandLoop_from_frame [] inbound p1))).
  destruct (makeScreenShot_encoded f p) as (c & E & _).
  rewrite H1 in E. injection E as -> _. reflexivity.
Qed.

(** What the [switch] does to [isNavigating]. *)
Lemma switch_isNavigating (cmd : Command) (p : Program) :
  isNavigating (settings (fst (switch cmd p)))
  = if starts_drag cmd then true
    else if ends_drag cmd then false
    else isNavigating (settings p).
Proof.
  unfold starts_drag, ends_drag.
  by_kind cmd
    ltac:(cbn [fst String.eqb Ascii.eqb Bool.eqb andb];
          rewrite ?settings_with_imageSettings; cbv beta;
          try match goal with
              | |- context [quality_case ?v ?s] =>
                  destruct (quality_case_frame v s) as [Q | [q Q]]; rewrite Q
              | |- context [imagesettings_case ?pf ?v ?s] =>
                  rewrite (proj2 (proj2 (proj2
                             (imagesettings_case_frame pf v s))))
              end;
          repeat match goal with
                 | |- context [if ?b then _ else _] => destruct b
                 | |- context [match ?o with Some _ => _ | None => _ end] =>
                     destruct o
                 end; reflexivity).
Qed.

Lemma commandLoop_from_isNavigating_stays (b : bool) (done : list Call)
    (inbound : list (Command * option string)) (p : Program) :
  forallb (fun c => negb (if b then ends_drag c else starts_drag c))
    (commands inbound) = true ->
  isNavigating (settings p) = b ->
  isNavigating (settings (fst (from done inbound p))) = b.
Proof.
  revert done p.
  induction inbound as [ | [cmd err] rest IH ]; intros done p Hall Hp.
  - exact Hp.
  - cbn [commands map forallb fst] in Hall. apply andb_true_iff in Hall.
    destruct Hall as [Hc Hrest]. apply negb_true_iff in Hc.
    rewrite commandLoop_from_cons. cbn [fst]. apply (IH _ _ Hrest).
    rewrite after_calls_settings.
    rewrite (proj1 (body_switch ParseFloat json_Marshal cmd err p)).
    rewrite switch_isNavigating.
    destruct b; rewrite ?Hc.
    + destruct (starts_drag cmd); [ reflexivity | exact Hp ].
    + destruct (ends_drag cmd); [ reflexivity | exact Hp ].
Qed.

(** [isNavigating] follows the drag gestures: it is false after a "mouseup"
    as long as no "mousedown" with [Moved] follows, and true after a
    "mousedown" with [Moved] as long as no "mouseup" follows, whatever
    other commands come in between; a "mousedown" without [Moved] does not
    clear it. *)
Theorem isNavigating_follows_the_drag
    (before after : list (Command * option string))
    (cmd : Command) (err : option string) (p : Program) :
  (ends_drag cmd = true ->
   forallb (fun c => negb (starts_drag c)) (commands after) = true ->
   isNavigating (settings (fst (run (before ++ (cmd, err) :: after) p)))
   = false) /\
  (starts_drag cmd = true ->
   forallb (fun c => negb (ends_drag c)) (commands after) = true ->
   isNavigating (settings (fst (run (before ++ (cmd, err) :: after) p)))
   = true).
Proof.
  unfold commandLoop.
  assert (Hstep : forall b : bool,
            (if b then starts_drag cmd else ends_drag cmd) = true ->
            (b = false -> starts_drag cmd = false) ->
            forallb (fun c => negb (if b then ends_drag c else starts_drag c))
              (commands after) = true ->
            isNavigating
              (settings (fst (from [] (before ++ (cmd, err) :: after) p))) = b).
  { intros b Hc Hs Hall. rewrite commandLoop_from_app. cbn [fst].
    rewrite commandLoop_from_cons. cbn [fst].
    apply (commandLoop_from_isNavigating_stays b _ _ _ Hall).
    rewrite after_calls_settings.
    rewrite (proj1 (body_switch ParseFloat json_Marshal cmd err _)).
    rewrite switch_isNavigating.
    destruct b; [ now rewrite Hc | ].
    rewrite Hs by reflexivity. now rewrite Hc. }
  split; intros Hc Hall.
  - apply (Hstep false Hc); [ | exact Hall ].
    intros _. unfold starts_drag, ends_drag in *.
    apply String.eqb_eq in Hc. rewrite Hc. reflexivity.
  - apply (Hstep true Hc); [ discriminate | exact Hall ].
Qed.

(** An empty kind forwards (x, y) as one cursor-position event, whatever
    the value and the flags, logging nothing and changing nothing; and no
    command of another kind produces a cursor-position event. *)
Theorem cursor_event_iff_empty_kind (cmd : Command) (p : Program) :
  (Cmd cmd = "" ->
   body (cmd, None) p = (p, [Orbit_OnCursorPos (X cmd) (Y cmd)])) /\
  (forall x y,
     In (Orbit_OnCursorPos x y) (snd (switch cmd p)) ->
     Cmd cmd = "" /\ x = X cmd /\ y = Y cmd).
Proof.
  split.
  - intros H. unfold commandLoop_body, commandLoop_switch. cbv zeta.
    rewrite H. reflexivity.
  - intros x y.
    by_kind cmd
      ltac:(cbn [snd];
            repeat match goal with
                   | |- context [match ?o with Some _ => _ | None => _ end] =>
                       destruct o
                   end;
            cbn [snd]; unfold sendMessageToClient;
            try match goal with
                | |- context [json_Marshal ?m] => destruct (json_Marshal m)
                end;
            intros Hc;
            repeat match goal with
                   | H : In _ (_ ++ _) |- _ =>
                       apply in_app_iff in H; destruct H as [H | H]
                   | H : In _ (map _ _) |- _ =>
                       apply in_map_iff in H; destruct H as (? & ? & _)
                   | H : In _ (_ :: _) |- _ => destruct H as [H | H]
                   | H : In _ [] |- _ => destruct H
                   | H : In _ (if ?b then _ else _) |- _ => destruct b
                   end;
            try discriminate;
            match goal with
            | H : Orbit_OnCursorPos _ _ = Orbit_OnCursorPos _ _ |- _ =>
                injection H as <- <-; auto
            end).
Qed.

Lemma picks_app (c1 c2 : list Call) :
  picks (c1 ++ c2) = (picks c1 ++ picks c2)%list.
Proof.
  induction c1 as [ | c c1 IH ]; [ reflexivity | ].
  destruct c; cbn; rewrite ?IH; reflexivity.
Qed.

Lemma picks_SetVisible_row {A : Type} (node : A -> Node) (state : bool)
    (l : list A) :
  picks (map (fun x => Node_SetVisible (node x) state) l) = [].
Proof. induction l as [ | x l IH ]; [ reflexivity | exact IH ]. Qed.

Lemma switch_picks (cmd : Command) (p : Program) :
  picks (snd (switch cmd p))
  = if is_click cmd then [(X cmd, Y cmd, Ctrl cmd)] else [].
Proof.
  unfold is_click.
  by_kind cmd
    ltac:(cbn [snd String.eqb Ascii.eqb Bool.eqb andb];
          repeat match goal with
                 | |- context [match ?o with Some _ => _ | None => _ end] =>
                     destruct o
                 end;
          cbn [snd]; unfold sendMessageToClient;
          try match goal with
              | |- context [json_Marshal ?m] => destruct (json_Marshal m)
              end;
          rewrite ?picks_app, ?(picks_SetVisible_row snd),
            ?(picks_SetVisible_row (fun m : Node => m));
          repeat match goal with
                 | |- context [if ?b then _ else _] => destruct b
                 end;
          reflexivity).
Qed.

(** Over every run of the command loop the selection picks are, in order,
    exactly those of the clicks: one pick at the position of each "mouseup"
    command with value "0" and [Moved] clear, with its [Ctrl] flag as the
    extend flag, and none for any other command. *)
Theorem every_click_picks_once
    (inbound : list (Command * option string)) (p : Program) :
  picks (snd (run inbound p))
  = map (fun c => (X c, Y c, Ctrl c))
      (List.filter is_click (commands inbound)).
Proof.
  unfold commandLoop. generalize (@nil Call) as done. revert p.
  induction inbound as [ | [cmd err] rest IH ]; intros p done;
    [ reflexivity | ].
  rewrite commandLoop_from_cons.
  cbn [commands map List.filter fst snd].
  rewrite picks_app, IH.
  rewrite (proj2 (body_switch ParseFloat json_Marshal cmd err p)).
  rewrite !picks_app, switch_picks.
  unfold commands.
  destruct err; destruct (negb (String.eqb (Cmd cmd) ""));
    destruct (is_click cmd); reflexivity.
Qed.

(** A run of "invert" commands alone flips the invert flag when their
    number is odd and leaves the program exactly as it was when it is even;
    a run of "debug" commands does the same to the debug flag. *)
Theorem toggles_go_by_parity
    (inbound : list (Command * option string)) (p : Program) :
  (all_of_kind "invert" inbound = true ->
   fst (run inbound p)
   = if Nat.even (length inbound) then p
     else with_imageSettings (set_invert (negb (invert (settings p)))) p) /\
  (all_of_kind "debug" inbound = true ->
   fst (run inbound p)
   = if Nat.even (length inbound) then p
     else set_Debug (negb (Debug (renderingApp p))) p).
Proof.
  assert (Hi : forall done cmd err q, Cmd cmd = "invert" ->
            follow done (snd (body (cmd, err) q)) (fst (body (cmd, err) q))
            = with_imageSettings (set_invert (negb (invert (settings q)))) q).
  { intros done cmd err q H.
    rewrite iteration_quiet
      by (unfold is_hide, is_click; rewrite H; reflexivity).
    unfold commandLoop_switch. cbv zeta. rewrite H.
    cbn [String.eqb Ascii.eqb Bool.eqb fst].
    unfold with_imageSettings, settings.
    destruct (invert (imageSettings (renderingApp q))); reflexivity. }
  assert (Hd : forall done cmd err q, Cmd cmd = "debug" ->
            follow done (snd (body (cmd, err) q)) (fst (body (cmd, err) q))
            = set_Debug (negb (Debug (renderingApp q))) q).
  { intros done cmd err q H.
    rewrite iteration_quiet
      by (unfold is_hide, is_click; rewrite H; reflexivity).
    unfold commandLoop_switch. cbv zeta. rewrite H.
    cbn [String.eqb Ascii.eqb Bool.eqb fst].
    destruct (Debug (renderingApp q)); reflexivity. }
  unfold all_of_kind, commands, commandLoop.
  generalize (@nil Call) as done. intros done. split; intros Hall.
  - revert done p Hall.
    induction inbound as [ | [cmd err] rest IH ]; intros done p Hall;
      [ reflexivity | ].
    cbn [map forallb fst] in Hall. apply andb_true_iff in Hall.
    destruct Hall as [Hc Hrest]. apply String.eqb_eq in Hc.
    rewrite commandLoop_from_cons. cbn [fst length].
    rewrite (Hi done cmd err p Hc), (IH _ _ Hrest).
    rewrite Nat.even_succ, <- Nat.negb_even.
    destruct p as [[s sel nodes dbg] md].
    destruct s as [b c sa bl px inv q enc nav].
    destruct (Nat.even (length rest)), inv; reflexivity.
  - revert done p Hall.
    induction inbound as [ | [cmd err] rest IH ]; intros done p Hall;
      [ reflexivity | ].
    cbn [map forallb fst] in Hall. apply andb_true_iff in Hall.
    destruct Hall as [Hc Hrest]. apply String.eqb_eq in Hc.
    rewrite commandLoop_from_cons. cbn [fst length].
    rewrite (Hd done cmd err p Hc), (IH _ _ Hrest).
    rewrite Nat.even_succ, <- Nat.negb_even.
    destruct p as [[s sel nodes dbg] md].
    destruct (Nat.even (length rest)), dbg; reflexivity.
Qed.

End Loop.

(** ** Hiding and showing nodes *)

Lemma Node_eqb_eq (n m : Node) : Node_eqb n m = true <-> n = m.
Proof.
  unfold Node_eqb. rewrite andb_true_iff, Pos.eqb_eq, String.eqb_eq.
  destruct n as [pn un], m as [pm um]; cbn. split.
  - intros [-> ->]. reflexivity.
  - intros [= -> ->]. split; reflexivity.
Qed.

Lemma visibility_app (n : Node) (a b : list Call) (before : option bool) :
  visibility n (a ++ b) before = visibility n b (visibility n a before).
Proof.
  revert before. induction a as [ | c a IH ]; intros before; [ reflexivity | ].
  destruct c; cbn; apply IH.
Qed.

(** After a row of [SetVisible] calls with one state, a node of the row has
    that state and any other node the visibility it had. *)
Lemma visibility_row (n : Node) (state : bool) (nodes : list Node)
    (before : option bool) :
  visibility n (map (fun m => Node_SetVisible m state) nodes) before
  = if existsb (fun m => Node_eqb m n) nodes then Some state else before.
Proof.
  revert before. induction nodes as [ | m nodes IH ]; intros before;
    [ reflexivity | ].
  cbn [map visibility existsb]. rewrite IH.
  destruct (Node_eqb m n), (existsb (fun m0 => Node_eqb m0 n) nodes);
    reflexivity.
Qed.

Lemma existsb_Node_eqb (n : Node) (nodes : list Node) :
  existsb (fun m => Node_eqb m n) nodes = true <-> In n nodes.
Proof.
  rewrite existsb_exists. split.
  - intros (m & Hin & E). apply Node_eqb_eq in E. now subst.
  - intros Hin. exists n. split; [ exact Hin | now apply Node_eqb_eq ].
Qed.

Section Scene.

Variable ParseFloat : string -> option float64.
Variable json_Marshal : Message -> string + string.

Local Abbreviation switch := (commandLoop_switch ParseFloat json_Marshal).

Ltac take_case H :=
  unfold commandLoop_switch; cbv zeta; rewrite H;
  cbn [String.eqb Ascii.eqb Bool.eqb].

(** A "hide" command hides every node of the selection buffer and no other
    node, then calls [resetSelection], once and as its last call, also when
    nothing is selected; the command itself writes no state. *)
Theorem hide_hides_the_selection (cmd : Command) (p : Program) :
  Cmd cmd = "hide" ->
  fst (switch cmd p) = p /\
  (forall n before,
     visibility n (snd (switch cmd p)) before
     = if existsb (fun m => Node_eqb m n) (selectionBuffer (renderingApp p))
       then Some false else before) /\
  (forall n before,
     In n (selectionBuffer (renderingApp p)) ->
     visibility n (snd (switch cmd p)) before = Some false) /\
  last (snd (switch cmd p)) = Some resetSelection /\
  length (List.filter
            (fun c => match c with resetSelection => true | _ => false end)
            (snd (switch cmd p))) = 1%nat /\
  length (snd (switch cmd p))
  = S (length (selectionBuffer (renderingApp p))).
Proof.
  intros H.
  assert (E : switch cmd p
              = (p, (map (fun inode => Node_SetVisible inode false)
                       (selectionBuffer (renderingApp p))
                     ++ [resetSelection])%list)).
  { take_case H. reflexivity. }
  rewrite E. cbn [fst snd].
  assert (V : forall n before,
            visibility n
              (map (fun inode => Node_SetVisible inode false)
                 (selectionBuffer (renderingApp p)) ++ [resetSelection])
              before
            = if existsb (fun m => Node_eqb m n)
                   (selectionBuffer (renderingApp p))
              then Some false else before).
  { intros n before. rewrite visibility_app, visibility_row. reflexivity. }
  split; [ reflexivity | ]. split; [ exact V | ].
  split.
  { intros n before Hin. rewrite V.
    now rewrite (proj2 (existsb_Node_eqb n _) Hin). }
  split; [ apply last_snoc | ].
  split.
  - clear E V.
    induction (selectionBuffer (renderingApp p)) as [ | m l IH ];
      [ reflexivity | exact IH ].
  - rewrite length_app, length_map. cbn. lia.
Qed.

(** An "unhide" command makes visible every node the node buffer holds, one
    call per entry of the buffer in whatever order the map is walked, and
    touches no other node; on an empty buffer it does nothing.  The command
    itself writes no state. *)
Theorem unhide_shows_every_buffered_node (cmd : Command) (p : Program) :
  Cmd cmd = "unhide" ->
  fst (switch cmd p) = p /\
  (forall k n before,
     nodeBuffer (renderingApp p) !! k = Some n ->
     visibility n (snd (switch cmd p)) before = Some true) /\
  (forall n before,
     (forall k, nodeBuffer (renderingApp p) !! k <> Some n) ->
     visibility n (snd (switch cmd p)) before = before) /\
  (forall c, In c (snd (switch cmd p)) ->
             exists k n, nodeBuffer (renderingApp p) !! k = Some n /\
                         c = Node_SetVisible n true) /\
  length (snd (switch cmd p)) = size (nodeBuffer (renderingApp p)).
Proof.
  intros H.
  assert (E : switch cmd p
              = (p, map (fun m => Node_SetVisible m true)
                      (map snd (map_to_list (nodeBuffer (renderingApp p)))))).
  { take_case H. now rewrite map_map. }
  rewrite E. cbn [fst snd].
  assert (M : forall n,
            In n (map snd (map_to_list (nodeBuffer (renderingApp p))))
            <-> exists k, nodeBuffer (renderingApp p) !! k = Some n).
  { intros n. rewrite in_map_iff. split.
    - intros ([k m] & <- & Hin). exists k.
      apply list_elem_of_In in Hin. now apply elem_of_map_to_list in Hin.
    - intros (k & Hk). exists (k, n). split; [ reflexivity | ].
      apply list_elem_of_In. now apply elem_of_map_to_list. }
  split; [ reflexivity | ].
  split.
  { intros k n before Hk. rewrite visibility_row.
    rewrite (proj2 (existsb_Node_eqb n _)); [ reflexivity | ].
    apply M. now exists k. }
  split.
  { intros n before Hno. rewrite visibility_row.
    destruct (existsb _ _) eqn:Eb; [ | reflexivity ].
    apply existsb_Node_eqb, M in Eb. destruct Eb as (k & Hk).
    now destruct (Hno k). }
  split.
  { intros c Hc. apply in_map_iff in Hc. destruct Hc as (n & <- & Hn).
    apply M in Hn. destruct Hn as (k & Hk). now exists k, n. }
  rewrite !length_map. apply length_map_to_list.
Qed.

(** A "keydown" or "keyup" command sends the engine exactly one key event,
    a press or a release, and writes no state.  The key is an arrow key
    exactly for the four codes "38", "37", "39" and "40", and Enter for
    every other value. *)
Theorem key_commands (cmd : Command) (p : Program) :
  Cmd cmd = "keydown" \/ Cmd cmd = "keyup" ->
  switch cmd p
  = (p, [Orbit_OnKey
           (if String.eqb (Cmd cmd) "keydown"
            then window.Press else window.Release)
           (mapKey (Val cmd))]) /\
  (mapKey (Val cmd) = window.KeyUp <-> Val cmd = "38") /\
  (mapKey (Val cmd) = window.KeyLeft <-> Val cmd = "37") /\
  (mapKey (Val cmd) = window.KeyRight <-> Val cmd = "39") /\
  (mapKey (Val cmd) = window.KeyDown <-> Val cmd = "40") /\
  (mapKey (Val cmd) = window.KeyEnter <->
   ~ In (Val cmd) ["38"; "37"; "39"; "40"]).
Proof.
  intros H. split.
  - destruct H as [H | H]; take_case H; reflexivity.
  - unfold mapKey.
    destruct (String.eqb_spec (Val cmd) "38") as [E | N1];
      [ rewrite E; cbn; intuition (try discriminate; try congruence) | ].
    destruct (String.eqb_spec (Val cmd) "37") as [E | N2];
      [ rewrite E; cbn; intuition (try discriminate; try congruence) | ].
    destruct (String.eqb_spec (Val cmd) "39") as [E | N3];
      [ rewrite E; cbn; intuition (try discriminate; try congruence) | ].
    destruct (String.eqb_spec (Val cmd) "40") as [E | N4];
      [ rewrite E; cbn; intuition (try discriminate; try congruence) | ].
    cbn. intuition (try discriminate; try congruence).
Qed.

(** A "mousedown" command sends the engine one press event at (x, y) with
    the mapped button: Middle exactly for "1", Right exactly for "2", Left
    for every other value.  It sets [isNavigating] when [Moved] is set and
    otherwise leaves it as it is; nothing else is written. *)
Theorem mousedown_press (cmd : Command) (p : Program) :
  Cmd cmd = "mousedown" ->
  snd (switch cmd p)
  = [Orbit_OnMouse (X cmd) (Y cmd) window.Press (mapMouseButton (Val cmd))] /\
  fst (switch cmd p)
  = (if Moved cmd then with_imageSettings (set_isNavigating true) p else p) /\
  (mapMouseButton (Val cmd) = window.MouseButtonMiddle <-> Val cmd = "1") /\
  (mapMouseButton (Val cmd) = window.MouseButtonRight <-> Val cmd = "2") /\
  (mapMouseButton (Val cmd) = window.MouseButtonLeft <->
   Val cmd <> "1" /\ Val cmd <> "2").
Proof.
  intros H. split; [ take_case H; reflexivity | ].
  split; [ take_case H; reflexivity | ].
  unfold mapMouseButton.
  destruct (String.eqb_spec (Val cmd) "0") as [E | N0];
    [ rewrite E; intuition (try discriminate; try congruence) | ].
  destruct (String.eqb_spec (Val cmd) "1") as [E | N1];
    [ rewrite E; intuition (try discriminate; try congruence) | ].
  destruct (String.eqb_spec (Val cmd) "2") as [E | N2];
    [ rewrite E; intuition (try discriminate; try congruence) | ].
  intuition (try discriminate; try congruence).
Qed.

End Scene.

(** ** How "imagesettings" commands compose *)

Lemma Split_length (s : string) (sep : ascii) :
  length (Split s sep) = S (count_byte sep s).
Proof.
  induction s as [ | c s IH ]; [ reflexivity | ].
  cbn [Split count_byte]. destruct (Ascii.eqb c sep).
  - cbn [length]. now rewrite IH.
  - destruct (Split s sep) as [ | hd tl ]; [ discriminate IH | exact IH ].
Qed.

Section Compose.

Variable ParseFloat : string -> option float64.
Variable json_Marshal : Message -> string + string.

Variable picked :
  list Call -> float32 -> float32 -> bool -> RenderingApp -> list Node.

Local Abbreviation switch := (commandLoop_switch ParseFloat json_Marshal).
Local Abbreviation body := (commandLoop_body ParseFloat json_Marshal).
Local Abbreviation run := (commandLoop ParseFloat json_Marshal picked).

Ltac take_case H :=
  unfold commandLoop_switch; cbv zeta; rewrite H;
  cbn [String.eqb Ascii.eqb Bool.eqb].

Lemma imagesettings_case_idempotent (val : string) (s : ImageSettings) :
  imagesettings_case ParseFloat val (imagesettings_case ParseFloat val s)
  = imagesettings_case ParseFloat val s.
Proof.
  destruct (Split val ":") as [ | a [ | b [ | c [ | d [ | e [ | f l ] ] ] ] ] ]
    eqn:HS;
    try (rewrite !imagesettings_case_other_count;
         [ reflexivity | rewrite HS; cbn [length]; lia .. ]).
  rewrite !(imagesettings_case_fields _ _ _ _ _ _ _ _ HS).
  cbn [brightness contrast saturation blur pixelation invert quality encoder
         isNavigating].
  destruct (Atoi a), (Atoi b), (Atoi c), (Atoi d), (ParseFloat e);
    reflexivity.
Qed.

Lemma imagesettings_case_overrides (v1 v2 a b c d e : string)
    (s : ImageSettings) :
  Split v2 ":" = [a; b; c; d; e] ->
  Atoi a <> None -> Atoi b <> None -> Atoi c <> None -> Atoi d <> None ->
  ParseFloat e <> None ->
  imagesettings_case ParseFloat v2 (imagesettings_case ParseFloat v1 s)
  = imagesettings_case ParseFloat v2 s.
Proof.
  intros HS Ha Hb Hc Hd He.
  rewrite !(imagesettings_case_fields _ _ _ _ _ _ _ _ HS).
  destruct (Atoi a), (Atoi b), (Atoi c), (Atoi d), (ParseFloat e);
    try congruence.
  destruct (imagesettings_case_frame ParseFloat v1 s) as (H1 & H2 & H3 & H4).
  now rewrite H1, H2, H3, H4.
Qed.

(** One iteration on an "imagesettings" command. *)
Lemma iteration_imagesettings (done : list Call) (c : Command)
    (e : option string) (p : Program) :
  Cmd c = "imagesettings" ->
  after_calls picked done (snd (body (c, e) p)) (fst (body (c, e) p))
  = with_imageSettings (imagesettings_case ParseFloat (Val c)) p.
Proof.
  intros H.
  rewrite iteration_quiet
    by (unfold is_hide, is_click; rewrite H; reflexivity).
  take_case H. reflexivity.
Qed.

Lemma run_two_imagesettings (c1 c2 : Command) (e1 e2 : option string)
    (p : Program) :
  Cmd c1 = "imagesettings" -> Cmd c2 = "imagesettings" ->
  fst (run [(c1, e1); (c2, e2)] p)
  = with_imageSettings
      (fun s => imagesettings_case ParseFloat (Val c2)
                  (imagesettings_case ParseFloat (Val c1) s)) p.
Proof.
  intros H1 H2. unfold commandLoop.
  rewrite !commandLoop_from_cons. cbn [fst commandLoop_from].
  rewrite (iteration_imagesettings _ c1 e1 p H1).
  rewrite (iteration_imagesettings _ c2 e2 _ H2). reflexivity.
Qed.

(** Sending the same "imagesettings" command twice leaves the program as
    sending it once does; and a second "imagesettings" command all of whose
    five fields parse overrides the first one entirely. *)
Theorem imagesettings_commands_compose
    (c1 c2 : Command) (e1 e2 e3 : option string) (p : Program) :
  Cmd c1 = "imagesettings" -> Cmd c2 = "imagesettings" ->
  fst (run [(c1, e1); (c1, e2)] p) = fst (run [(c1, e3)] p) /\
  (forall a b c d e,
     Split (Val c2) ":" = [a; b; c; d; e] ->
     Atoi a <> None -> Atoi b <> None -> Atoi c <> None -> Atoi d <> None ->
     ParseFloat e <> None ->
     fst (run [(c1, e1); (c2, e2)] p) = fst (run [(c2, e3)] p)).
Proof.
  intros H1 H2.
  assert (R : forall c e, Cmd c = "imagesettings" ->
              fst (run [(c, e)] p)
              = with_imageSettings (imagesettings_case ParseFloat (Val c)) p).
  { intros c e H. unfold commandLoop.
    rewrite commandLoop_from_cons. cbn [fst commandLoop_from].
    apply (iteration_imagesettings _ c e p H). }
  split.
  - rewrite (run_two_imagesettings c1 c1 e1 e2 p H1 H1), (R c1 e3 H1).
    unfold with_imageSettings. now rewrite imagesettings_case_idempotent.
  - intros a b c d e HS Ha Hb Hc Hd He.
    rewrite (run_two_imagesettings c1 c2 e1 e2 p H1 H2), (R c2 e3 H2).
    unfold with_imageSettings.
    now rewrite (imagesettings_case_overrides (Val c1) (Val c2) a b c d e).
Qed.

(** An "imagesettings" command is applied only when its value holds
    exactly four colons; with any other number of colons, the empty value
    included, the program is left exactly as it was and nothing is
    called. *)
Theorem imagesettings_needs_four_colons (cmd : Command) (p : Program) :
  Cmd cmd = "imagesettings" ->
  count_byte ":" (Val cmd) <> 4%nat ->
  switch cmd p = (p, []).
Proof.
  intros H Hn. take_case H. unfold with_imageSettings.
  rewrite (imagesettings_case_other_count ParseFloat (Val cmd)
             (imageSettings (renderingApp p)))
    by (rewrite Split_length; lia).
  destruct p as [[s sel nodes dbg] md]. reflexivity.
Qed.

End Compose.

(** ** More on the clamps *)

(** With [lower <= upper] the integer clamp is the midpoint of the three
    numbers, it returns its argument exactly when the argument is within
    the bounds, and it is monotone; with [lower > upper] it never returns
    its argument: the result is [upper] above [upper] and [lower]
    otherwise. *)
Theorem getValueInRange_shape (v w lower upper : Z) :
  (lower <= upper ->
   getValueInRange v lower upper = Z.max lower (Z.min v upper) /\
   (getValueInRange v lower upper = v <-> lower <= v <= upper) /\
   (v <= w ->
    getValueInRange v lower upper <= getValueInRange w lower upper)) /\
  (upper < lower ->
   getValueInRange v lower upper = (if v >? upper then upper else lower) /\
   getValueInRange v lower upper <> v).
Proof.
  unfold getValueInRange.
  destruct (Z.gtb_spec v upper), (Z.ltb_spec v lower),
    (Z.gtb_spec w upper), (Z.ltb_spec w lower);
    repeat split; intros; try lia.
Qed.

(** An infinite value is clamped to a bound: plus infinity to an upper
    bound that is a number below it, minus infinity to a lower bound that
    is a number above it. *)
Theorem getFloatValueInRange_infinities (lower upper : float64) :
  is_nan lower = false -> is_nan upper = false ->
  (upper <> S754_infinity false ->
   getFloatValueInRange (S754_infinity false) lower upper = upper) /\
  (lower <> S754_infinity true ->
   getFloatValueInRange (S754_infinity true) lower upper = lower).
Proof.
  intros Hl Hu. unfold getFloatValueInRange, f_gt, f_lt, SFltb. split.
  - intros Hne. destruct upper as [s | [ | ] | | s m e]; cbn;
      try reflexivity; try discriminate; try congruence;
      destruct s; reflexivity.
  - intros Hne.
    destruct upper as [su | su | | su mu eu]; try discriminate;
      destruct lower as [s | [ | ] | | s m e]; cbn;
      try reflexivity; try discriminate; try congruence;
      try (destruct s; reflexivity); try (destruct su; reflexivity);
      destruct su, s; reflexivity.
Qed.

(** ** The scroll event of "zoom" *)

Lemma shr_1_nonneg (mrs : shr_record) :
  0 <= shr_m mrs -> 0 <= shr_m (shr_1 mrs).
Proof.
  destruct mrs as [m r s]. cbn [shr_m].
  destruct m as [ | [q | q | ] | [q | q | ] ]; cbn; lia.
Qed.

Lemma iter_shr_1_nonneg (n : positive) (mrs : shr_record) :
  0 <= shr_m mrs -> 0 <= shr_m (SpecFloat.iter_pos shr_1 n mrs).
Proof.
  revert mrs. induction n as [n IH | n IH | ]; intros mrs H; cbn [SpecFloat.iter_pos].
  - apply IH, IH, shr_1_nonneg, H.
  - apply IH, IH, H.
  - apply shr_1_nonneg, H.
Qed.

Lemma shr_fexp_nonneg (prec emax m e : Z) (l : location) :
  0 <= m -> 0 <= shr_m (fst (shr_fexp prec emax m e l)).
Proof.
  intros H. unfold shr_fexp, shr.
  assert (H0 : 0 <= shr_m (shr_record_of_loc m l))
    by (destruct l as [ | [ | | ] ]; exact H).
  destruct (fexp prec emax (Zdigits2 m + e) - e) as [ | n | n ];
    cbn [fst]; try exact H0.
  now apply iter_shr_1_nonneg.
Qed.

Lemma round_nearest_even_nonneg (m : Z) (l : location) :
  0 <= m -> 0 <= round_nearest_even m l.
Proof.
  intros H. unfold round_nearest_even.
  destruct l as [ | [ | | ] ]; try destruct (Z.even m); lia.
Qed.

(** Rounding a mantissa that is not negative yields a zero, a number or an
    infinity of the sign given, never NaN. *)
Lemma binary_round_aux_sign (prec emax : Z) (sx : bool) (mx ex : Z)
    (lx : location) :
  0 <= mx -> sign_bit (binary_round_aux prec emax sx mx ex lx) = Some sx.
Proof.
  intros H. unfold binary_round_aux.
  pose proof (shr_fexp_nonneg prec emax mx ex lx H) as H1.
  destruct (shr_fexp prec emax mx ex lx) as [mrs1 e1]. cbn [fst] in H1.
  pose proof (shr_fexp_nonneg prec emax
                (round_nearest_even (shr_m mrs1) (loc_of_shr_record mrs1))
                e1 loc_Exact (round_nearest_even_nonneg _ _ H1)) as H2.
  destruct (shr_fexp prec emax
              (round_nearest_even (shr_m mrs1) (loc_of_shr_record mrs1))
              e1 loc_Exact) as [mrs2 e2].
  cbn [fst] in H2.
  destruct (shr_m mrs2) as [ | m | m ]; [ reflexivity | | lia ].
  destruct (e2 <=? emax - prec); reflexivity.
Qed.

Lemma SFdiv_core_binary_nonneg (prec emax : Z) (m1 m2 : positive) (e1 e2 : Z) :
  0 <= fst (fst (SFdiv_core_binary prec emax (Zpos m1) e1 (Zpos m2) e2)).
Proof.
  unfold SFdiv_core_binary. cbv zeta.
  set (s := e1 - e2 - _).
  set (m' := match s with Z0 => Zpos m1 | Zpos _ => Z.shiftl (Zpos m1) s
                       | Zneg _ => 0 end).
  assert (Hm : 0 <= m').
  { unfold m'. destruct s; try lia. apply Z.shiftl_nonneg. lia. }
  pose proof (Z.div_pos m' (Zpos m2) Hm ltac:(lia)) as Hq.
  unfold Z.div in Hq. destruct (Z.div_eucl m' (Zpos m2)) as [q r].
  exact Hq.
Qed.

(** Dividing by a positive number keeps the sign of the dividend, a zero
    or infinite dividend stays one, and the quotient is NaN only for a NaN
    dividend. *)
Lemma SFdiv_by_positive (prec emax : Z) (x : spec_float) (m : positive)
    (e : Z) :
  sign_bit (SFdiv prec emax x (S754_finite false m e)) = sign_bit x /\
  (forall s, x = S754_zero s ->
             SFdiv prec emax x (S754_finite false m e) = S754_zero s) /\
  (forall s, x = S754_infinity s ->
             SFdiv prec emax x (S754_finite false m e) = S754_infinity s).
Proof.
  split; [ | split; intros s ->; cbn; now rewrite xorb_false_r ].
  destruct x as [s | s | | s mx ex]; cbn [SFdiv sign_bit];
    rewrite ?xorb_false_r; try reflexivity.
  pose proof (SFdiv_core_binary_nonneg prec emax mx m ex e) as Hq.
  destruct (SFdiv_core_binary prec emax (Zpos mx) ex (Zpos m) e)
    as [[q e'] l].
  now apply binary_round_aux_sign.
Qed.

Lemma SF_same_eq (x y : spec_float) : SF_same x y = true -> x = y.
Proof.
  destruct x as [s | s | | s m e], y as [t | t | | t n f]; cbn [SF_same];
    try discriminate; try reflexivity.
  - intros H. apply Bool.eqb_prop in H. now subst.
  - intros H. apply Bool.eqb_prop in H. now subst.
  - intros H. apply andb_true_iff in H. destruct H as [H He].
    apply andb_true_iff in H. destruct H as [Hs Hm].
    apply Bool.eqb_prop in Hs. apply Pos.eqb_eq in Hm. apply Z.eqb_eq in He.
    now subst.
Qed.

Lemma in_integers_within (n k : Z) : - n <= k <= n -> In k (integers_within n).
Proof.
  intros H. unfold integers_within. apply in_map_iff.
  exists (Z.to_nat (k + n)). split; [ lia | ]. apply in_seq. lia.
Qed.

(** In [float32], ten times a whole number divided by ten is that number;
    checked value by value up to a given bound. *)
Lemma tenfold_divided_by_ten (n : Z) :
  forallb
    (fun k =>
       SF_same
         (SFdiv 24 128 (SFopp (float32_of_int (10 * k))) (float32_of_int 10))
         (SFopp (float32_of_int k)))
    (integers_within n) = true ->
  forall k, - n <= k <= n ->
    SFdiv 24 128 (SFopp (float32_of_int (10 * k))) (float32_of_int 10)
    = SFopp (float32_of_int k).
Proof.
  intros Hall k Hk. rewrite forallb_forall in Hall.
  apply SF_same_eq, Hall, in_integers_within, Hk.
Qed.

Section Zoom.

Variable ParseFloat : string -> option float64.
Variable json_Marshal : Message -> string + string.

Local Abbreviation switch := (commandLoop_switch ParseFloat json_Marshal).

(** A "zoom" command sends the engine one scroll event and writes no
    state.  The horizontal offset is X itself.  The vertical offset is the
    [float32] quotient of -Y by 10: for Y ten times a whole number k of at
    most four digits it is exactly -k; it has the sign of Y flipped, is a
    zero (an infinity) with the flipped sign when Y is a zero (an infinity),
    and is NaN only when Y is. *)
Theorem zoom_scroll_event (cmd : Command) (p : Program) :
  Cmd cmd = "zoom" ->
  let yoffset := SFdiv 24 128 (SFopp (Y cmd)) (float32_of_int 10) in
  switch cmd p = (p, [Orbit_OnScroll (X cmd) yoffset]) /\
  (forall k, -9999 <= k <= 9999 -> Y cmd = float32_of_int (10 * k) ->
             yoffset = SFopp (float32_of_int k)) /\
  sign_bit yoffset = option_map negb (sign_bit (Y cmd)) /\
  (forall s, Y cmd = S754_zero s -> yoffset = S754_zero (negb s)) /\
  (forall s, Y cmd = S754_infinity s -> yoffset = S754_infinity (negb s)) /\
  (is_nan yoffset = is_nan (Y cmd)).
Proof.
  intros H yoffset. subst yoffset.
  split.
  { unfold commandLoop_switch. cbv zeta. rewrite H. reflexivity. }
  split.
  { intros k Hk E. rewrite E.
    apply (tenfold_divided_by_ten 9999); [ vm_compute; reflexivity | exact Hk ]. }
  change (float32_of_int 10) with (S754_finite false 10485760 (-20)).
  destruct (SFdiv_by_positive 24 128 (SFopp (Y cmd)) 10485760 (-20))
    as (Hs & Hz & Hi).
  assert (Hopp : sign_bit (SFopp (Y cmd)) = option_map negb (sign_bit (Y cmd)))
    by (destruct (Y cmd); reflexivity).
  split; [ now rewrite Hs | ].
  split; [ intros s E; apply Hz; rewrite E; reflexivity | ].
  split; [ intros s E; apply Hi; rewrite E; reflexivity | ].
  rewrite Hopp in Hs.
  destruct (SFdiv 24 128 (SFopp (Y cmd)) (S754_finite false 10485760 (-20)));
    destruct (Y cmd); cbn in *; congruence.
Qed.

End Zoom.

(** ** The properties at concrete inputs *)

(** Two identical frames from a fresh program are sent once; two frames
    with different digests are both sent, in order. *)
Lemma C2_dedup_gate_witness :
  md5.Sum frame_A <> md5SumBuffer Program_initial /\
  md5.Sum frame_B <> md5.Sum frame_A /\
  transmitted
    (Outcome_calls
       (renderTicks [Encoded frame_A; Encoded frame_A] Program_initial))
  = [frame_A] /\
  transmitted
    (Outcome_calls
       (renderTicks [Encoded frame_A; Encoded frame_B] Program_initial))
  = [frame_A; frame_B].
Proof.
  assert (HA : md5.Sum frame_A <> md5SumBuffer Program_initial)
    by (vm_compute; discriminate).
  assert (HB : md5.Sum frame_B <> md5.Sum frame_A)
    by (vm_compute; discriminate).
  split; [ exact HA | split; [ exact HB | split ] ].
  - exact (proj1 (proj2 (proj2
             (C2_dedup_gate Program_initial frame_A frame_B)))).
  - exact (proj1 (proj2 (proj2 (proj2
             (C2_dedup_gate Program_initial frame_A frame_B)))) HA HB).
Defined.

(** C2 (the claim as stated fails): after a tick that sent the frame "A",
    the next two ticks encode "A" and then "B", two differing encodings,
    and only "B" is sent; three identical encodings in a row make the last
    two yield no transmission at all; and from a fresh program two
    different byte sequences that collide under MD5 yield one
    transmission. *)
Lemma C2_counterexample :
  renderTicks [Encoded frame_A] Program_initial
  = Returned (set_md5SumBuffer (md5.Sum frame_A) Program_initial)
      [cImagestream_send frame_A] /\
  frame_A <> frame_B /\
  transmitted
    (Outcome_calls
       (renderTicks [Encoded frame_A; Encoded frame_B]
          (set_md5SumBuffer (md5.Sum frame_A) Program_initial)))
  = [frame_B] /\
  transmitted
    (Outcome_calls
       (renderTicks [Encoded frame_A; Encoded frame_A]
          (set_md5SumBuffer (md5.Sum frame_A) Program_initial)))
  = [] /\
  collision_1 <> collision_2 /\
  transmitted
    (Outcome_calls
       (renderTicks [Encoded collision_1; Encoded collision_2]
          Program_initial))
  = [collision_1].
Proof.
  repeat split; try (vm_compute; reflexivity); vm_compute; discriminate.
Qed.

(** The example of the specification: release, then pick at (10, 20). *)
Lemma C3_mouseup_release_and_pick_witness :
  Cmd command_mouseup_10_20 = "mouseup" /\
  snd (commandLoop_switch ParseFloat_decimal json_Marshal_plain
         command_mouseup_10_20 Program_initial)
  = [Orbit_OnMouse (float32_of_int 10) (float32_of_int 20) window.Release
       window.MouseButtonLeft;
     selectNode (float32_of_int 10) (float32_of_int 20) false].
Proof.
  split; [ reflexivity | ].
  exact (proj2 (proj2 (proj2
           (C3_mouseup_release_and_pick ParseFloat_decimal json_Marshal_plain
              command_mouseup_10_20 Program_initial eq_refl)))).
Defined.

(** C3 (the claim as stated fails): for the value "3" (in a browser, the
    fourth button of the mouse) the mapped button is the primary one and
    [Moved] is false, yet the only call is the release event: no pick is
    performed. *)
Lemma C3_counterexample :
  mapMouseButton "3" = window.MouseButtonLeft /\
  Moved (command "mouseup" "3") = false /\
  snd (commandLoop_switch ParseFloat_decimal json_Marshal_plain
         (command "mouseup" "3") Program_initial)
  = [Orbit_OnMouse (S754_zero false) (S754_zero false) window.Release
       window.MouseButtonLeft].
Proof. repeat split. Qed.

(** The value "2" sets the quality to Low. *)
Lemma C4_quality_by_parsed_value_witness :
  Cmd (command "quality" "2") = "quality" /\
  quality
    (settings
       (fst (commandLoop_switch ParseFloat_decimal json_Marshal_plain
               (command "quality" "2") Program_initial)))
  = lowQ.
Proof.
  split; [ reflexivity | ].
  exact (proj1 (proj2 (proj2
           (C4_quality_by_parsed_value ParseFloat_decimal json_Marshal_plain
              (command "quality" "2") Program_initial eq_refl))) eq_refl).
Defined.

(** C4 (the claim as stated fails): the value "abc" is not an integer, and
    the quality, High before the command, is High after it, not Medium;
    and the value "00", which is not "0", sets High. *)
Lemma C4_counterexample :
  Atoi "abc" = None /\
  quality (settings Program_initial) = highQ /\
  quality
    (settings
       (fst (commandLoop_switch ParseFloat_decimal json_Marshal_plain
               (command "quality" "abc") Program_initial)))
  = highQ /\
  quality
    (settings
       (fst (commandLoop_switch ParseFloat_decimal json_Marshal_plain
               (command "quality" "00")
               (with_imageSettings (set_quality lowQ) Program_initial))))
  = highQ /\
  highQ <> mediumQ.
Proof. repeat split; discriminate. Qed.

(** A node found in the buffer: nothing reaches the channel. *)
Lemma C6_userdata_is_only_logged_witness :
  Cmd (command "userdata" "n1") = "userdata" /\
  nodeBuffer (renderingApp Program_one_node) !! "n1" = Some (mkNode 1 "wall") /\
  forall msg,
    ~ In (cData_send msg)
        (snd (commandLoop_switch ParseFloat_decimal json_Marshal_plain
                (command "userdata" "n1") Program_one_node)).
Proof.
  split; [ reflexivity | split; [ reflexivity | ] ].
  exact (proj1 (proj2 (proj2
           (C6_userdata_is_only_logged ParseFloat_decimal json_Marshal_plain
              (command "userdata" "n1") Program_one_node (mkNode 1 "wall")
              eq_refl eq_refl)))).
Defined.

(** The example of the specification, "150:-5:0:25:0.5"; and the value
    "1:2:3:4:NaN", whose pixelation field is stored as NaN, outside
    [1.0, 10.0]. *)
Lemma C7_imagesettings_fields_witness :
  ParseFloat_decimal "0.5" = Some float64_half /\
  numeric_fields
    (settings
       (fst (commandLoop_switch ParseFloat_decimal json_Marshal_plain
               (command "imagesettings" "150:-5:0:25:0.5") Program_initial)))
  = (float64_of_int 100, float64_of_int (-5), float64_of_int 0,
     float64_of_int 20, float64_of_int 1) /\
  ParseFloat_decimal "NaN" = Some S754_nan /\
  f_in_range 1 10 (pixelation (settings Program_initial)) = true /\
  f_in_range 1 10
    (pixelation
       (settings
          (fst (commandLoop_switch ParseFloat_decimal json_Marshal_plain
                  (command "imagesettings" "1:2:3:4:NaN") Program_initial))))
  = false.
Proof.
  split; [ reflexivity | split; [ | split; [ reflexivity | split ] ] ].
  - exact (proj2 (proj2 (proj2 (proj2
             (C7_imagesettings_fields ParseFloat_decimal json_Marshal_plain
                (command "imagesettings" "150:-5:0:25:0.5") Program_initial
                eq_refl eq_refl)))) eq_refl).
  - reflexivity.
  - destruct (C7_imagesettings_fields ParseFloat_decimal json_Marshal_plain
                (command "imagesettings" "1:2:3:4:NaN") Program_initial
                eq_refl eq_refl) as (_ & R & _).
    destruct (R "1" "2" "3" "4" "NaN" eq_refl) as (_ & _ & _ & _ & _ & N).
    exact (proj2 (N S754_nan eq_refl eq_refl)).
Defined.

(** From the neutral settings, "0:0:0:0:NaN" leaves them out of range. *)
Lemma C8_pixelation_nan_escapes_witness :
  ParseFloat_decimal "NaN" = Some S754_nan /\
  in_range (settings Program_initial) = true /\
  in_range
    (settings
       (fst (commandLoop_switch ParseFloat_decimal json_Marshal_plain
               (command "imagesettings" "0:0:0:0:NaN") Program_initial)))
  = false.
Proof.
  split; [ reflexivity | split; [ reflexivity | ] ].
  exact (proj2
           (C8_pixelation_nan_escapes ParseFloat_decimal json_Marshal_plain
              Program_initial eq_refl eq_refl)).
Defined.

(** The three settings commands on the initial program. *)
Lemma C10_settings_commands_frame_witness :
  md5SumBuffer
    (fst (commandLoop_switch ParseFloat_decimal json_Marshal_plain
            (command "quality" "2") Program_initial))
  = md5SumBuffer Program_initial /\
  invert
    (settings
       (fst (commandLoop_switch ParseFloat_decimal json_Marshal_plain
               (command "invert" "") Program_initial)))
  = true /\
  Debug
    (renderingApp
       (fst (commandLoop_switch ParseFloat_decimal json_Marshal_plain
               (command "debug" "") Program_initial)))
  = true.
Proof.
  split; [ | split ].
  - apply (proj1 (C10_settings_commands_frame ParseFloat_decimal
                    json_Marshal_plain (command "quality" "2")
                    Program_initial) eq_refl).
  - apply (proj1 (proj2 (C10_settings_commands_frame ParseFloat_decimal
                           json_Marshal_plain (command "invert" "")
                           Program_initial)) eq_refl).
  - apply (proj2 (proj2 (C10_settings_commands_frame ParseFloat_decimal
                           json_Marshal_plain (command "debug" "")
                           Program_initial)) eq_refl).
Defined.

(** A run of three commands without NaN keeps the settings in range. *)
Lemma commandLoop_keeps_in_range_witness :
  in_range
    (settings
       (fst (commandLoop ParseFloat_decimal json_Marshal_plain picked_roof
               [(command "imagesettings" "150:-5:0:25:0.5", None);
                (command "invert" "", None);
                (command "imagesettings" "x:300:1:-4:Inf", None)]
               Program_initial)))
  = true.
Proof.
  exact (commandLoop_keeps_in_range ParseFloat_decimal json_Marshal_plain
           picked_roof
           [(command "imagesettings" "150:-5:0:25:0.5", None);
            (command "invert" "", None);
            (command "imagesettings" "x:300:1:-4:Inf", None)]
           Program_initial eq_refl eq_refl).
Defined.

(** The clamps at 150 within [-100, 100] and at 0.5 within [1.0, 10.0]. *)
Lemma clamp_bounded_and_idempotent_witness :
  getValueInRange 150 (-100) 100 = 100 /\
  getFloatValueInRange float64_half (float64_of_int 1) (float64_of_int 10)
  = float64_of_int 1 /\
  f_le (float64_of_int 1)
    (getFloatValueInRange float64_half (float64_of_int 1) (float64_of_int 10))
  = true.
Proof.
  split; [ reflexivity | split; [ reflexivity | ] ].
  exact (proj1 (proj2 (proj2
           (clamp_bounded_and_idempotent 150 (-100) 100 float64_half
              (float64_of_int 1) (float64_of_int 10)
              ltac:(lia) eq_refl eq_refl)))).
Defined.

(** The kind "dance" is logged as unknown. *)
Lemma unknown_command_is_logged_witness :
  commandLoop_switch ParseFloat_decimal json_Marshal_plain
    (command "dance" "") Program_initial
  = (Program_initial, [Log_Info "Unknown Command: dance"]).
Proof.
  apply (unknown_command_is_logged ParseFloat_decimal json_Marshal_plain
           (command "dance" "") Program_initial).
  cbn. intuition discriminate.
Defined.

(** The value "500" sets the field of view to 120. *)
Lemma fov_is_clamped_witness :
  commandLoop_switch ParseFloat_decimal json_Marshal_plain
    (command "fov" "500") Program_initial
  = (Program_initial, [CameraPersp_SetFov (float32_of_int 120)]).
Proof.
  exact (proj1 (fov_is_clamped ParseFloat_decimal json_Marshal_plain
                  (command "fov" "500") Program_initial eq_refl)).
Defined.

(** After a tick on the frame "A", two commands and a tick on the same
    bytes: nothing more is sent. *)
Lemma commands_do_not_reopen_the_gate_witness :
  makeScreenShot (Encoded frame_A)
    (fst (commandLoop ParseFloat_decimal json_Marshal_plain picked_roof
            [(command "invert" "", None); (command "quality" "2", None)]
            (set_md5SumBuffer (md5.Sum frame_A) Program_initial)))
  = Returned
      (fst (commandLoop ParseFloat_decimal json_Marshal_plain picked_roof
              [(command "invert" "", None); (command "quality" "2", None)]
              (set_md5SumBuffer (md5.Sum frame_A) Program_initial)))
      [].
Proof.
  apply (commands_do_not_reopen_the_gate ParseFloat_decimal json_Marshal_plain
           picked_roof
           frame_A
           [(command "invert" "", None); (command "quality" "2", None)]
           Program_initial
           (set_md5SumBuffer (md5.Sum frame_A) Program_initial)
           [cImagestream_send frame_A]).
  vm_compute. reflexivity.
Defined.

(** A drag, a key press, then the release: navigating ends. *)
Lemma isNavigating_follows_the_drag_witness :
  isNavigating
    (settings
       (fst (commandLoop ParseFloat_decimal json_Marshal_plain picked_roof
               ([(mkCommand (float32_of_int 1) (float32_of_int 1) "mousedown"
                    "0" true false, None)]
                ++ (command "mouseup" "0", None)
                   :: [(command "keydown" "38", None);
                       (command "mousedown" "0", None)])
               Program_initial)))
  = false.
Proof.
  apply (proj1 (isNavigating_follows_the_drag ParseFloat_decimal
                  json_Marshal_plain picked_roof
                  [(mkCommand (float32_of_int 1) (float32_of_int 1)
                      "mousedown" "0" true false, None)]
                  [(command "keydown" "38", None);
                   (command "mousedown" "0", None)]
                  (command "mouseup" "0") None Program_initial));
    reflexivity.
Defined.

(** Three "invert" commands flip the flag; two "debug" commands restore
    the program. *)
Lemma toggles_go_by_parity_witness :
  invert
    (settings
       (fst (commandLoop ParseFloat_decimal json_Marshal_plain picked_roof
               [(command "invert" "", None); (command "invert" "x", None);
                (command "invert" "", None)] Program_initial)))
  = true /\
  fst (commandLoop ParseFloat_decimal json_Marshal_plain picked_roof
         [(command "debug" "", None); (command "debug" "", None)]
         Program_initial)
  = Program_initial.
Proof.
  split.
  - rewrite (proj1 (toggles_go_by_parity ParseFloat_decimal json_Marshal_plain
                      picked_roof
                      [(command "invert" "", None);
                       (command "invert" "x", None);
                       (command "invert" "", None)] Program_initial)
               eq_refl).
    reflexivity.
  - exact (proj2 (toggles_go_by_parity ParseFloat_decimal json_Marshal_plain
                    picked_roof
                    [(command "debug" "", None); (command "debug" "", None)]
                    Program_initial) eq_refl).
Defined.

(** Both selected nodes of the scene end hidden; the node "roof", which is
    not selected, keeps its visibility. *)
Lemma hide_hides_the_selection_witness :
  visibility (mkNode 2 "door")
    (snd (commandLoop_switch ParseFloat_decimal json_Marshal_plain
            (command "hide" "") Program_scene)) (Some true)
  = Some false /\
  visibility (mkNode 3 "roof")
    (snd (commandLoop_switch ParseFloat_decimal json_Marshal_plain
            (command "hide" "") Program_scene)) (Some true)
  = Some true.
Proof.
  destruct (hide_hides_the_selection ParseFloat_decimal json_Marshal_plain
              (command "hide" "") Program_scene eq_refl)
    as (_ & V & _).
  split; rewrite V; reflexivity.
Defined.

(** The node under "n3" is made visible. *)
Lemma unhide_shows_every_buffered_node_witness :
  nodeBuffer (renderingApp Program_scene) !! "n3" = Some (mkNode 3 "roof") /\
  visibility (mkNode 3 "roof")
    (snd (commandLoop_switch ParseFloat_decimal json_Marshal_plain
            (command "unhide" "") Program_scene)) (Some false)
  = Some true.
Proof.
  split; [ reflexivity | ].
  exact (proj1 (proj2
           (unhide_shows_every_buffered_node ParseFloat_decimal
              json_Marshal_plain (command "unhide" "") Program_scene eq_refl))
           "n3" (mkNode 3 "roof") (Some false) eq_refl).
Defined.

(** The code "13", Enter's own code in a browser, maps to Enter by the
    default. *)
Lemma key_commands_witness :
  commandLoop_switch ParseFloat_decimal json_Marshal_plain
    (command "keyup" "13") Program_initial
  = (Program_initial, [Orbit_OnKey window.Release window.KeyEnter]).
Proof.
  exact (proj1 (key_commands ParseFloat_decimal json_Marshal_plain
                  (command "keyup" "13") Program_initial
                  (or_intror eq_refl))).
Defined.

(** A press of the right button while moving. *)
Lemma mousedown_press_witness :
  snd (commandLoop_switch ParseFloat_decimal json_Marshal_plain
         (mkCommand (float32_of_int 3) (float32_of_int 4) "mousedown" "2"
            true false) Program_initial)
  = [Orbit_OnMouse (float32_of_int 3) (float32_of_int 4) window.Press
       window.MouseButtonRight].
Proof.
  exact (proj1 (mousedown_press ParseFloat_decimal json_Marshal_plain
                  (mkCommand (float32_of_int 3) (float32_of_int 4)
                     "mousedown" "2" true false) Program_initial eq_refl)).
Defined.

(** "1:2:3:4:5" after "50:x:0:7:2.5" leaves what "1:2:3:4:5" alone
    leaves. *)
Lemma imagesettings_commands_compose_witness :
  fst (commandLoop ParseFloat_decimal json_Marshal_plain picked_roof
         [(command "imagesettings" "50:x:0:7:2.5", None);
          (command "imagesettings" "1:2:3:4:5", None)] Program_initial)
  = fst (commandLoop ParseFloat_decimal json_Marshal_plain picked_roof
           [(command "imagesettings" "1:2:3:4:5", None)] Program_initial).
Proof.
  apply (proj2 (imagesettings_commands_compose ParseFloat_decimal
                  json_Marshal_plain picked_roof
                  (command "imagesettings" "50:x:0:7:2.5")
                  (command "imagesettings" "1:2:3:4:5")
                  None None None Program_initial eq_refl eq_refl)
           "1" "2" "3" "4" "5" eq_refl);
    discriminate.
Defined.

(** Three colons: nothing happens. *)
Lemma imagesettings_needs_four_colons_witness :
  commandLoop_switch ParseFloat_decimal json_Marshal_plain
    (command "imagesettings" "1:2:3:4") Program_initial
  = (Program_initial, []).
Proof.
  apply (imagesettings_needs_four_colons ParseFloat_decimal json_Marshal_plain
           (command "imagesettings" "1:2:3:4") Program_initial eq_refl).
  cbn. lia.
Defined.

(** Plus infinity within [1.0, 10.0] is 10.0. *)
Lemma getFloatValueInRange_infinities_witness :
  getFloatValueInRange (S754_infinity false) (float64_of_int 1)
    (float64_of_int 10)
  = float64_of_int 10.
Proof.
  apply (proj1 (getFloatValueInRange_infinities (float64_of_int 1)
                  (float64_of_int 10) eq_refl eq_refl)).
  discriminate.
Defined.

(** Scrolling by Y = 20 gives the vertical offset -2. *)
Lemma zoom_scroll_event_witness :
  commandLoop_switch ParseFloat_decimal json_Marshal_plain
    (mkCommand (float32_of_int 0) (float32_of_int 20) "zoom" "" false false)
    Program_initial
  = (Program_initial,
     [Orbit_OnScroll (float32_of_int 0) (float32_of_int (-2))]).
Proof.
  destruct (zoom_scroll_event ParseFloat_decimal json_Marshal_plain
              (mkCommand (float32_of_int 0) (float32_of_int 20) "zoom" ""
                 false false) Program_initial eq_refl)
    as (E & K & _).
  rewrite E, (K 2 ltac:(lia) eq_refl). reflexivity.
Defined.

(** In the scene with two selected nodes: a scroll, a "hide", then an
    "unhide" and an "invert".  The selection is empty at the end, and a
    further "hide" only resets the selection. *)
Lemma commandLoop_buffers_and_selection_witness :
  selectionBuffer (renderingApp Program_scene)
  = [mkNode 1 "wall"; mkNode 2 "door"] /\
  selectionBuffer
    (renderingApp
       (fst (commandLoop ParseFloat_decimal json_Marshal_plain picked_roof
               ([(command "zoom" "", None)]
                ++ (command "hide" "", None)
                   :: [(command "unhide" "", None);
                       (command "invert" "", None)])
               Program_scene)))
  = [] /\
  snd (commandLoop_switch ParseFloat_decimal json_Marshal_plain
         (command "hide" "")
         (fst (commandLoop ParseFloat_decimal json_Marshal_plain picked_roof
                 ([(command "zoom" "", None)]
                  ++ (command "hide" "", None)
                     :: [(command "unhide" "", None);
                         (command "invert" "", None)])
                 Program_scene)))
  = [resetSelection].
Proof.
  split; [ reflexivity | ].
  exact (proj2 (proj2 (proj2 (proj2
           (commandLoop_buffers_and_selection ParseFloat_decimal
              json_Marshal_plain picked_roof []
              [(command "zoom" "", None)]
              [(command "unhide" "", None); (command "invert" "", None)]
              (command "hide" "") None Program_scene))))
           eq_refl eq_refl).
Defined.

(** A run on the scene with two selected nodes, the pick meeting the node
    "roof": the first "hide" hides the two nodes and clears the selection,
    the click selects "roof", the second "hide" hides "roof" alone, and the
    third hides nothing. *)
Example commandLoop_hide_click_hide_hide :
  snd (commandLoop ParseFloat_decimal json_Marshal_plain picked_roof
         [(command "hide" "", None); (command "mouseup" "0", None);
          (command "hide" "", None); (command "hide" "", None)]
         Program_scene)
  = [Log_Info_received (command "hide" "");
     Node_SetVisible (mkNode 1 "wall") false;
     Node_SetVisible (mkNode 2 "door") false;
     resetSelection;
     Log_Info_received (command "mouseup" "0");
     Orbit_OnMouse (S754_zero false) (S754_zero false) window.Release
       window.MouseButtonLeft;
     selectNode (S754_zero false) (S754_zero false) false;
     Log_Info_received (command "hide" "");
     Node_SetVisible (mkNode 3 "roof") false;
     resetSelection;
     Log_Info_received (command "hide" "");
     resetSelection].
Proof. reflexivity. Qed.
